(** * API-DIGIMON: the transport client and the request handlers

    A shallow embedding of [services/digimon.service.go],
    [controllers/digimon.controllers.go] and
    [controllers/test.controllers.go].

    Go values are modelled as follows.
    - [string] is a byte string: Rocq's [string].
    - [int] is a 64-bit signed integer, carried as [Z]; the program never
      computes on one, it only compares, formats and parses them, and the
      parser [strconv.Atoi] is where the 64-bit range shows.
    - A pointer that may be nil ([*bool], [*Digimon], [*DigimonListOptions])
      and the [error] interface are [option]s; [None] is nil.
    - [url.Values], a [map[string][]string], is a [gmap string (list string)].
    - The functions of Go's library the program calls are written out from
      their documented behaviour in the modules [strconv], [gostrings] and
      [url]; what the network and the JSON decoder answer is the record
      [services.Env]. *)

From Stdlib Require Import ZArith String Ascii List Lia Bool.
From stdpp Require Import base gmap strings pretty list sorting.

Open Scope Z_scope.

(* ================================================================= *)
(** ** fmt: the [%d] verb *)

Module fmt.
(** [fmt.Sprintf("%d", n)]: decimal digits, a leading [-] below zero. *)
Definition d (n : Z) : string := pretty n.

(** What [%s] and [Println] write for a [[]string]: the elements
    between brackets, a space between two. *)
Definition strings (l : list string) : string :=
  "[" +:+ String.concat " " l +:+ "]".
End fmt.

(* ================================================================= *)
(** ** strconv.Atoi *)

Module strconv.

Definition is_digit (c : ascii) : bool :=
  let n := N_of_ascii c in ((48 <=? n) && (n <=? 57))%N.

Definition digit_value (c : ascii) : Z := Z.of_N (N_of_ascii c) - 48.

(** The value of a run of decimal digits, [None] at the first byte that
    is not one. *)
Fixpoint digits (s : string) (acc : Z) : option Z :=
  match s with
  | EmptyString => Some acc
  | String c r =>
      if is_digit c then digits r (10 * acc + digit_value c) else None
  end.

Definition minInt : Z := - 2 ^ 63.
Definition maxInt : Z := 2 ^ 63 - 1.

(** An optional sign split off the front. *)
Definition sign_split (s : string) : bool * string :=
  match s with
  | String c r =>
      if Ascii.eqb c "-" then (true, r)
      else if Ascii.eqb c "+" then (false, r)
      else (false, s)
  | EmptyString => (false, s)
  end.

(** [strconv.Atoi]: an optional sign and at least one decimal digit,
    nothing else, and a value that fits [int]. [None] stands for a
    non-nil error ([ErrSyntax] or [ErrRange]); the callers only test
    [err == nil]. *)
Definition Atoi (s : string) : option Z :=
  let '(neg, body) := sign_split s in
  match body with
  | EmptyString => None
  | _ =>
      match digits body 0 with
      | None => None
      | Some n =>
          let v := if neg then - n else n in
          if (minInt <=? v) && (v <=? maxInt) then Some v else None
      end
  end.

End strconv.

(* ================================================================= *)
(** ** strings.TrimSpace *)

Module gostrings.

(** The code points [unicode.IsSpace] accepts: the Latin-1 ones of its
    switch and the [White_Space] range table beyond. *)
Definition space_code_points : list Z :=
  [ 0x09; 0x0A; 0x0B; 0x0C; 0x0D; 0x20; 0x85; 0xA0;
    0x1680;
    0x2000; 0x2001; 0x2002; 0x2003; 0x2004; 0x2005;
    0x2006; 0x2007; 0x2008; 0x2009; 0x200A;
    0x2028; 0x2029; 0x202F; 0x205F; 0x3000 ].

Definition byte (n : Z) : ascii := ascii_of_N (Z.to_N n).

(** UTF-8 of a code point below [0x10000]. *)
Definition EncodeRune (r : Z) : string :=
  if r <? 0x80 then String (byte r) EmptyString
  else if r <? 0x800 then
    String (byte (Z.lor 0xC0 (Z.shiftr r 6)))
      (String (byte (Z.lor 0x80 (Z.land r 0x3F))) EmptyString)
  else
    String (byte (Z.lor 0xE0 (Z.shiftr r 12)))
      (String (byte (Z.lor 0x80 (Z.land (Z.shiftr r 6) 0x3F)))
         (String (byte (Z.lor 0x80 (Z.land r 0x3F))) EmptyString)).

Definition space_runes : list string := Eval cbv in
  map EncodeRune space_code_points.

Fixpoint drop (n : nat) (s : string) : string :=
  match n, s with
  | O, _ => s
  | S _, EmptyString => EmptyString
  | S n', String _ r => drop n' r
  end.

(** The encoding in [runes] the string starts with, if any. A string
    decodes to a space at its head exactly when it starts with the
    UTF-8 of one: an ill-formed or over-long sequence decodes to
    [RuneError], which is no space. *)
Definition leading (runes : list string) (s : string) : option string :=
  List.find (fun w => String.prefix w s) runes.

Fixpoint trim (runes : list string) (fuel : nat) (s : string) : string :=
  match fuel with
  | O => s
  | S fuel' =>
      match leading runes s with
      | Some w => trim runes fuel' (drop (String.length w) s)
      | None => s
      end
  end.

Definition TrimLeft (s : string) : string :=
  trim space_runes (String.length s) s.

(** From the end the decoder steps back to the start byte of the last
    rune; the string ends in a space exactly when it ends with the
    UTF-8 of one. Trimming the end is trimming the head of the
    reversed string by the reversed encodings. *)
Definition TrimRight (s : string) : string :=
  String.rev
    (trim (map String.rev space_runes) (String.length s) (String.rev s)).

(** [strings.TrimSpace]: leading spaces go first, then trailing ones. *)
Definition TrimSpace (s : string) : string := TrimRight (TrimLeft s).

End gostrings.

(* ================================================================= *)
(** ** net/url: Values *)

Module url.

Abbreviation Values := (gmap string (list string)).

(** [v.Get(key)]: the first value under [key], the empty string when
    there is none. [Request.FormValue] reads [r.Form] the same way. *)
Definition Get (v : Values) (key : string) : string :=
  match v !! key with
  | Some (x :: _) => x
  | _ => EmptyString
  end.

(** [v.Add(key, value)]: [v[key] = append(v[key], value)]. *)
Definition Add (key value : string) (v : Values) : Values :=
  <[key := (v !!! key) ++ [value]]> v.

Definition is_alnum (c : ascii) : bool :=
  let n := N_of_ascii c in
  (((97 <=? n) && (n <=? 122)) || ((65 <=? n) && (n <=? 90))
   || ((48 <=? n) && (n <=? 57)))%N.

(** [shouldEscape(c, encodeQueryComponent)]: letters, digits and the
    marks [-_.~] pass, everything else is escaped. *)
Definition shouldEscape (c : ascii) : bool :=
  negb (is_alnum c
        || Ascii.eqb c "-" || Ascii.eqb c "_"
        || Ascii.eqb c "." || Ascii.eqb c "~").

Definition upperhex (n : N) : ascii :=
  if (n <? 10)%N then ascii_of_N (48 + n) else ascii_of_N (55 + n).

Definition escape_byte (c : ascii) : string :=
  if Ascii.eqb c " " then "+"
  else if shouldEscape c then
    let n := N_of_ascii c in
    String "%" (String (upperhex (n / 16)) (String (upperhex (n mod 16)) ""))
  else String c "".

Fixpoint QueryEscape (s : string) : string :=
  match s with
  | EmptyString => EmptyString
  | String c r => escape_byte c +:+ QueryEscape r
  end.

(** [slices.Sort(keys)] over the keys of the map; the order of Go's
    [<] on strings is byte-wise lexicographic, [String.le]. *)
Definition sorted_keys (v : Values) : list string :=
  merge_sort String.le (map fst (map_to_list v)).

(** The [key=value] pairs in the order [Encode] writes them. *)
Definition pairs (v : Values) : list (string * string) :=
  flat_map (fun k => map (fun x => (k, x)) (v !!! k)) (sorted_keys v).

(** A run of pairs written as [key=value], both sides escaped, with
    [&] between them. *)
Definition encode (l : list (string * string)) : string :=
  String.concat "&"
    (map (fun kv => QueryEscape kv.1 +:+ "=" +:+ QueryEscape kv.2) l).

(** [v.Encode()]: the pairs of the map, keys sorted, written out. *)
Definition Encode (v : Values) : string := encode (pairs v).

End url.

(* ================================================================= *)
(** ** context and time *)

Module time.
(** A [time.Duration] counts nanoseconds. *)
Definition Second : Z := 1000000000.
End time.

Module context.
Inductive Context : Type :=
| Background
| WithTimeout (parent : Context) (timeout : Z).
End context.

(* ================================================================= *)
(** ** net/http: the client side *)

Module http.

Definition StatusOK : Z := 200.
Definition StatusSeeOther : Z := 303.
Definition StatusBadRequest : Z := 400.
Definition StatusNotFound : Z := 404.
Definition StatusInternalServerError : Z := 500.

Definition MethodGet : string := "GET".

(** An outbound request as the program shapes it: the context it is
    bound to, the method, the URL text it was created from and the raw
    query the program assigns to [req.URL.RawQuery] afterwards (empty
    when it assigns none). The URL text is kept as it was given:
    [net/url] parses it when the request is created, and a [?] or a [#]
    in the text starts a query or a fragment of the request all the
    same. *)
Record Request : Type := {
  Ctx : context.Context;
  Method : string;
  URL : string;
  RawQuery : string
}.

(** What [httpClient.Do] comes back with: an error (DNS, refused
    connection, deadline exceeded) carried by its message, or a
    response with its status code and body. The client has no
    [CheckRedirect]: it follows redirects on its own, and the response
    is the last one of the chain. The status code is the number in the
    status line, three digits of any value: 99 is a status code the
    client passes on. *)
Inductive RoundTrip : Type :=
| Failed (err : string)
| Answered (StatusCode : Z) (Body : string).

(** [http.Client{Timeout: defaultTimeout}] *)
Record Client : Type := { Timeout : Z }.

End http.

(** The requests a computation hands to [httpClient.Do], in order,
    next to its value: one entry per call of [Do], whatever the client
    sends on the wire to answer it. *)
Definition Call (A : Type) : Type := (A * list http.Request)%type.

#[global] Instance Call_ret : MRet Call := fun A a => (a, []).
#[global] Instance Call_bind : MBind Call :=
  fun A B f m => let r := f m.1 in (r.1, m.2 ++ r.2).

(* ================================================================= *)
(** ** services/digimon.service.go *)

Module services.

Definition digimonAPIBaseURL : string := "https://digi-api.com/api/v1".
Definition defaultTimeout : Z := 10 * time.Second.

Definition httpClient : http.Client := {| http.Timeout := defaultTimeout |}.

Record Image : Type := {
  Image_Href : string;
  Image_Transparent : string
}.

Record DigimonType : Type := {
  DigimonType_ID : Z;
  DigimonType_Type : string;
  DigimonType_Image : string
}.

Record DigimonAttribute : Type := {
  DigimonAttribute_ID : Z;
  DigimonAttribute_Attribute : string;
  DigimonAttribute_Image : string
}.

Record DigimonLevel : Type := {
  DigimonLevel_ID : Z;
  DigimonLevel_Level : string
}.

Record DigimonField : Type := {
  DigimonField_ID : Z;
  DigimonField_Field : string;
  DigimonField_Image : string
}.

Record DigimonSkill : Type := {
  DigimonSkill_ID : Z;
  DigimonSkill_Skill : string;
  DigimonSkill_Description : string
}.

Record Description : Type := {
  Description_Origin : string;
  Description_Language : string;
  Description_Description : string
}.

Record Digimon : Type := {
  Digimon_ID : Z;
  Digimon_Name : string;
  Digimon_XAntibody : bool;
  Digimon_Images : list Image;
  Digimon_Levels : list DigimonLevel;
  Digimon_Types : list DigimonType;
  Digimon_Attributes : list DigimonAttribute;
  Digimon_Fields : list DigimonField;
  Digimon_Skills : list DigimonSkill;
  Digimon_Descriptions : list Description
}.

Record DigimonSummary : Type := {
  DigimonSummary_ID : Z;
  DigimonSummary_Name : string;
  DigimonSummary_Href : string;
  DigimonSummary_Image : string
}.

Record Sort : Type := {
  Sorted : bool;
  Unsorted : bool;
  Sort_Empty : bool
}.

Record Pageable : Type := {
  Pageable_Sort : Sort;
  PageNumber : Z;
  Pageable_PageSize : Z;
  Offset : Z;
  Paged : bool;
  Unpaged : bool
}.

Record DigimonListResponse : Type := {
  Content : list DigimonSummary;
  Pageable_ : Pageable;
  TotalElements : Z;
  TotalPages : Z;
  Last : bool;
  First : bool;
  Size : Z;
  Number : Z;
  NumberOfElements : Z;
  Empty : bool
}.

Record Attribute : Type := {
  Attribute_ID : Z;
  Attribute_Attribute : string;
  Attribute_Digimons : list DigimonSummary
}.

Record Level : Type := {
  Level_ID : Z;
  Level_Level : string;
  Level_Digimons : list DigimonSummary
}.

Record DigimonListOptions : Type := {
  Name : string;
  Exact : bool;
  Attribute_ : string;
  XAntibody : option bool;
  Level_ : string;
  Page : Z;
  PageSize : Z
}.

(** Go's zero value of the struct; a composite literal sets the fields
    it names on top of it. *)
Definition zeroOptions : DigimonListOptions :=
  {| Name := ""; Exact := false; Attribute_ := ""; XAntibody := None;
     Level_ := ""; Page := 0; PageSize := 0 |}.

(** What the world outside answers: whether [http.NewRequestWithContext]
    accepts a context, method and URL text (its error message if not),
    what a call of the client's [Do] returns for a request, redirects
    followed, and what the JSON decoder makes of a body for each of the
    four target types ([inl] is the decoder's error). *)
Record Env : Type := {
  request_error : context.Context -> string -> string -> option string;
  round_trip : http.Client -> http.Request -> http.RoundTrip;
  decode_Digimon : string -> string + Digimon;
  decode_DigimonListResponse : string -> string + DigimonListResponse;
  decode_Attribute : string -> string + Attribute;
  decode_Level : string -> string + Level
}.

(** The three results of a service: the pointer, the status code and
    the error. *)
Definition Result (T : Type) : Type := (option T * Z * option string)%type.

Section WithEnv.
Variable env : Env.

(** [http.NewRequestWithContext(ctx, method, url, nil)] *)
Definition NewRequestWithContext
    (ctx : context.Context) (method url : string) : string + http.Request :=
  match request_error env ctx method url with
  | Some err => inl err
  | None =>
      inr {| http.Ctx := ctx; http.Method := method; http.URL := url;
             http.RawQuery := "" |}
  end.

(** [client.Do(req)]: one call of the client, recorded with the
    request it is given. *)
Definition Do (client : http.Client) (req : http.Request) : Call http.RoundTrip :=
  (round_trip env client req, [req]).

Definition fetchDigimon (ctx : context.Context) (url : string)
  : Call (Result Digimon) :=
  match NewRequestWithContext ctx http.MethodGet url with
  | inl err =>
      mret (None, http.StatusInternalServerError,
            Some ("erreur création requête: " +:+ err))
  | inr req =>
      resp ← Do httpClient req;
      match resp with
      | http.Failed err =>
          mret (None, http.StatusInternalServerError,
                Some ("erreur requête HTTP: " +:+ err))
      | http.Answered StatusCode Body =>
          if bool_decide (StatusCode ≠ http.StatusOK) then
            mret (None, StatusCode,
                  Some ("code HTTP inattendu: " +:+ fmt.d StatusCode))
          else
            match decode_Digimon env Body with
            | inl err =>
                mret (None, http.StatusInternalServerError,
                      Some ("erreur décodage JSON: " +:+ err))
            | inr digimon => mret (Some digimon, StatusCode, None)
            end
      end
  end.

Definition GetDigimonByID (ctx : context.Context) (id : Z)
  : Call (Result Digimon) :=
  let url := digimonAPIBaseURL +:+ "/digimon/" +:+ fmt.d id in
  fetchDigimon ctx url.

Definition GetDigimonByName (ctx : context.Context) (name : string)
  : Call (Result Digimon) :=
  let url := digimonAPIBaseURL +:+ "/digimon/" +:+ name in
  fetchDigimon ctx url.

(** The query parameters [GetAllDigimons] adds for non-nil options,
    starting from [req.URL.Query()], which is empty: the URL text the
    request was created from has no [?]. *)
Definition listQuery (opts : DigimonListOptions) : url.Values :=
  let q : url.Values := ∅ in
  let q := if bool_decide (Name opts ≠ "") then url.Add "name" (Name opts) q else q in
  let q := if Exact opts then url.Add "exact" "true" q else q in
  let q := if bool_decide (Attribute_ opts ≠ "")
           then url.Add "attribute" (Attribute_ opts) q else q in
  let q := match XAntibody opts with
           | Some b =>
               if b then url.Add "xAntibody" "true" q
               else url.Add "xAntibody" "false" q
           | None => q
           end in
  let q := if bool_decide (Level_ opts ≠ "") then url.Add "level" (Level_ opts) q else q in
  let q := if bool_decide (Page opts > 0) then url.Add "page" (fmt.d (Page opts)) q else q in
  let q := if bool_decide (PageSize opts > 0)
           then url.Add "pageSize" (fmt.d (PageSize opts)) q else q in
  q.

Definition GetAllDigimons (ctx : context.Context) (opts : option DigimonListOptions)
  : Call (Result DigimonListResponse) :=
  let url := digimonAPIBaseURL +:+ "/digimon" in
  match NewRequestWithContext ctx http.MethodGet url with
  | inl err =>
      mret (None, http.StatusInternalServerError,
            Some ("erreur création requête: " +:+ err))
  | inr req =>
      let req :=
        match opts with
        | Some opts =>
            {| http.Ctx := http.Ctx req; http.Method := http.Method req;
               http.URL := http.URL req;
               http.RawQuery := url.Encode (listQuery opts) |}
        | None => req
        end in
      resp ← Do httpClient req;
      match resp with
      | http.Failed err =>
          mret (None, http.StatusInternalServerError,
                Some ("erreur requête HTTP: " +:+ err))
      | http.Answered StatusCode Body =>
          if bool_decide (StatusCode ≠ http.StatusOK) then
            mret (None, StatusCode,
                  Some ("code HTTP inattendu: " +:+ fmt.d StatusCode))
          else
            match decode_DigimonListResponse env Body with
            | inl err =>
                mret (None, http.StatusInternalServerError,
                      Some ("erreur décodage JSON: " +:+ err))
            | inr listResponse => mret (Some listResponse, StatusCode, None)
            end
      end
  end.

Definition fetchAttribute (ctx : context.Context) (url : string)
  : Call (Result Attribute) :=
  match NewRequestWithContext ctx http.MethodGet url with
  | inl err =>
      mret (None, http.StatusInternalServerError,
            Some ("erreur création requête: " +:+ err))
  | inr req =>
      resp ← Do httpClient req;
      match resp with
      | http.Failed err =>
          mret (None, http.StatusInternalServerError,
                Some ("erreur requête HTTP: " +:+ err))
      | http.Answered StatusCode Body =>
          if bool_decide (StatusCode ≠ http.StatusOK) then
            mret (None, StatusCode,
                  Some ("code HTTP inattendu: " +:+ fmt.d StatusCode))
          else
            match decode_Attribute env Body with
            | inl err =>
                mret (None, http.StatusInternalServerError,
                      Some ("erreur décodage JSON: " +:+ err))
            | inr attribute => mret (Some attribute, StatusCode, None)
            end
      end
  end.

Definition GetAttributeByID (ctx : context.Context) (id : Z)
  : Call (Result Attribute) :=
  let url := digimonAPIBaseURL +:+ "/attribute/" +:+ fmt.d id in
  fetchAttribute ctx url.

Definition GetAttributeByName (ctx : context.Context) (name : string)
  : Call (Result Attribute) :=
  let url := digimonAPIBaseURL +:+ "/attribute/" +:+ name in
  fetchAttribute ctx url.

Definition fetchLevel (ctx : context.Context) (url : string)
  : Call (Result Level) :=
  match NewRequestWithContext ctx http.MethodGet url with
  | inl err =>
      mret (None, http.StatusInternalServerError,
            Some ("erreur création requête: " +:+ err))
  | inr req =>
      resp ← Do httpClient req;
      match resp with
      | http.Failed err =>
          mret (None, http.StatusInternalServerError,
                Some ("erreur requête HTTP: " +:+ err))
      | http.Answered StatusCode Body =>
          if bool_decide (StatusCode ≠ http.StatusOK) then
            mret (None, StatusCode,
                  Some ("code HTTP inattendu: " +:+ fmt.d StatusCode))
          else
            match decode_Level env Body with
            | inl err =>
                mret (None, http.StatusInternalServerError,
                      Some ("erreur décodage JSON: " +:+ err))
            | inr level => mret (Some level, StatusCode, None)
            end
      end
  end.

Definition GetLevelByID (ctx : context.Context) (id : Z)
  : Call (Result Level) :=
  let url := digimonAPIBaseURL +:+ "/level/" +:+ fmt.d id in
  fetchLevel ctx url.

Definition GetLevelByName (ctx : context.Context) (name : string)
  : Call (Result Level) :=
  let url := digimonAPIBaseURL +:+ "/level/" +:+ name in
  fetchLevel ctx url.

Definition GetDigimonByIDSimple (id : Z) : Call (Result Digimon) :=
  GetDigimonByID context.Background id.

Definition GetDigimonByNameSimple (name : string) : Call (Result Digimon) :=
  GetDigimonByName context.Background name.

Definition GetAllDigimonsSimple (opts : option DigimonListOptions)
  : Call (Result DigimonListResponse) :=
  GetAllDigimons context.Background opts.

End WithEnv.

End services.

(* ================================================================= *)
(** ** net/http: the server side *)

Module server.

(** The incoming request as the handlers read it: the parsed URL query
    ([r.URL.Query()]), the error of [r.ParseForm()] if it has one, and
    the parsed form ([r.Form]). *)
Record Request : Type := {
  Query : url.Values;
  ParseForm : option string;
  Form : url.Values
}.

(** [r.FormValue(key)]: the first value of the form under [key]. *)
Definition FormValue (r : Request) (key : string) : string :=
  url.Get (Form r) key.

(** A value of a template's [map[string]interface{}]. *)
Inductive Value : Type :=
| VString (s : string)
| VInt (n : Z)
| VBool (b : bool)
| VStrings (l : list string)
| VSummaries (l : list services.DigimonSummary).

(** The data handed to a template; [Nil] is the untyped [nil]. *)
Inductive Data : Type :=
| Summaries (l : list services.DigimonSummary)
| DigimonPointer (d : option services.Digimon)
| Map (m : gmap string Value)
| Nil.

(** What a handler does with its [http.ResponseWriter]: the call that
    ends it, with its arguments. What [net/http] puts on the wire for
    the call (no body under a status that allows none, an interim
    response for an informational status) is not part of the model.
    - [Error error code] is [http.Error(w, error, code)] with a code
      that [WriteHeader] accepts, see [http_Error].
    - [Redirect url code] is [http.Redirect(w, r, url, code)].
    - [RenderTemplate]: Modelled from the spec: [helper.RenderTemplate],
      whose package is not among the sources. The View Renderer "renders
      named templates with supplied data"; the call is kept with its
      template name and its data. *)
Inductive Response : Type :=
| Error (error : string) (code : Z)
| Redirect (url : string) (code : Z)
| RenderTemplate (name : string) (data : Data).

(** The status code the call hands to the writer; a rendered template
    is served with the default 200. *)
Definition status (w : Response) : Z :=
  match w with
  | Error _ code => code
  | Redirect _ code => code
  | RenderTemplate _ _ => http.StatusOK
  end.

(** A handler either returns, having written its response, or panics:
    on a nil dereference ([Panicked]), or in [WriteHeader], which
    refuses a status code below 100 or above 999 with the panic
    "invalid WriteHeader code" ([InvalidCode]). *)
Inductive Exec (A : Type) : Type :=
| Returned (a : A)
| Panicked
| InvalidCode (code : Z).
Arguments Returned {A} a.
Arguments Panicked {A}.
Arguments InvalidCode {A} code.

Definition Handler (A : Type) : Type := Call (Exec A).

#[global] Instance Handler_ret : MRet Handler := fun A a => (Returned a, []).
#[global] Instance Handler_bind : MBind Handler :=
  fun A B f m =>
    match m.1 with
    | Returned a => let r := f a in (r.1, m.2 ++ r.2)
    | Panicked => (Panicked, m.2)
    | InvalidCode code => (InvalidCode code, m.2)
    end.

(** A call into the services. *)
Definition call {A : Type} (m : Call A) : Handler A := (Returned m.1, m.2).

(** [err.Error()]: a nil [err] panics. *)
Definition Error_ (err : option string) : Handler string :=
  match err with
  | Some msg => mret msg
  | None => (Panicked, [])
  end.

(** A field read through a pointer: nil panics. *)
Definition deref {A : Type} (p : option A) : Handler A :=
  match p with
  | Some a => mret a
  | None => (Panicked, [])
  end.

(** [log.Printf]: its arguments are evaluated, the line goes to the
    process log and nowhere in the response. *)
Definition Printf (line : string) : Handler unit := mret tt.

(** [fmt.Printf] and [fmt.Println]: the text goes to the standard
    output of the process and nowhere in the response. *)
Definition Print (text : string) : Handler unit := mret tt.

(** [http.Error(w, error, code)]: sets the headers and calls
    [w.WriteHeader(code)], which panics on a code below 100 or above
    999; otherwise the response is the error text under that status. *)
Definition http_Error (error : string) (code : Z) : Handler Response :=
  if bool_decide (code < 100) || bool_decide (code > 999) then (InvalidCode code, [])
  else mret (Error error code).

End server.

(* ================================================================= *)
(** ** controllers/digimon.controllers.go *)

Module controllers.
Import server.

Definition nl : string := String (ascii_of_nat 10) EmptyString.

(** [fmt.Sprintf("Erreur service - code: %d\nmessage: %s", code, msg)];
    the [%v] of some handlers prints a string as [%s] does. *)
Definition service_error (code : Z) (msg : string) : string :=
  "Erreur service - code: " +:+ fmt.d code +:+ nl +:+ "message: " +:+ msg.

(** [createContext]: the background context with a ten-second timeout;
    the cancel function is deferred by every handler. *)
Definition createContext : context.Context :=
  context.WithTimeout context.Background (10 * time.Second).

Section WithEnv.
Variable env : services.Env.

Definition DisplayListDigimons (r : Request) : Handler Response :=
  let ctx := createContext in
  let opts :=
    {| services.Name := ""; services.Exact := false; services.Attribute_ := "";
       services.XAntibody := None; services.Level_ := ""; services.Page := 0;
       services.PageSize := 100 |} in
  '(data, dataStatusCode, err) ← call (services.GetAllDigimons env ctx (Some opts));
  if bool_decide (dataStatusCode ≠ http.StatusOK) || bool_decide (err ≠ None) then
    msg ← Error_ err;
    http_Error (service_error dataStatusCode msg) dataStatusCode
  else
    data ← deref data;
    mret (RenderTemplate "list_digimon" (Summaries (services.Content data))).

(** The page number [DisplayListDigimonsWithPagination] derives from
    the [page] URL parameter. *)
Definition requestedPage (r : Request) : Z :=
  let pageStr := url.Get (Query r) "page" in
  let page := 0 in
  if bool_decide (pageStr ≠ "") then
    match strconv.Atoi pageStr with
    | Some p => if bool_decide (p > 0) then p else page
    | None => page
    end
  else page.

Definition DisplayListDigimonsWithPagination (r : Request) : Handler Response :=
  let ctx := createContext in
  let page := requestedPage r in
  let opts :=
    {| services.Name := ""; services.Exact := false; services.Attribute_ := "";
       services.XAntibody := None; services.Level_ := ""; services.Page := page;
       services.PageSize := 20 |} in
  '(data, dataStatusCode, err) ← call (services.GetAllDigimons env ctx (Some opts));
  if bool_decide (dataStatusCode ≠ http.StatusOK) || bool_decide (err ≠ None) then
    msg ← Error_ err;
    http_Error (service_error dataStatusCode msg) dataStatusCode
  else
    data ← deref data;
    let templateData : gmap string Value :=
      list_to_map
        [ ("Digimons", VSummaries (services.Content data));
          ("CurrentPage", VInt page);
          ("TotalPages", VInt (services.TotalPages data));
          ("TotalDigimons", VInt (services.TotalElements data));
          ("HasNext", VBool (negb (services.Last data)));
          ("HasPrevious", VBool (negb (services.First data))) ] in
    mret (RenderTemplate "list_digimon_paginated" (Map templateData)).

Definition DisplaySearch (r : Request) : Handler Response :=
  let ctx := createContext in
  let query := FormValue r "query" in
  let query := gostrings.TrimSpace query in
  if bool_decide (query = "") then
    mret (Redirect "/digimons" http.StatusSeeOther)
  else
    let opts :=
      {| services.Name := query; services.Exact := false; services.Attribute_ := "";
         services.XAntibody := None; services.Level_ := ""; services.Page := 0;
         services.PageSize := 50 |} in
    '(data, dataStatusCode, dataError) ←
      call (services.GetAllDigimons env ctx (Some opts));
    if bool_decide (dataStatusCode ≠ http.StatusOK) || bool_decide (dataError ≠ None) then
      msg ← Error_ dataError;
      http_Error (service_error dataStatusCode msg) dataStatusCode
    else
      data ← deref data;
      let templateData : gmap string Value :=
        list_to_map
          [ ("Digimons", VSummaries (services.Content data));
            ("Query", VString query);
            ("Total", VInt (services.TotalElements data)) ] in
      mret (RenderTemplate "search_digimon" (Map templateData)).

Definition DisplaySearchAdvanced (r : Request) : Handler Response :=
  let ctx := createContext in
  let query := gostrings.TrimSpace (FormValue r "query") in
  let exact :=
    bool_decide (FormValue r "exact" = "true")
    || bool_decide (FormValue r "exact" = "on") in
  if bool_decide (query = "") then
    mret (Redirect "/digimons" http.StatusSeeOther)
  else
    let opts :=
      {| services.Name := query; services.Exact := exact; services.Attribute_ := "";
         services.XAntibody := None; services.Level_ := ""; services.Page := 0;
         services.PageSize := 50 |} in
    '(data, dataStatusCode, dataError) ←
      call (services.GetAllDigimons env ctx (Some opts));
    if bool_decide (dataStatusCode ≠ http.StatusOK) || bool_decide (dataError ≠ None) then
      msg ← Error_ dataError;
      http_Error (service_error dataStatusCode msg) dataStatusCode
    else
      data ← deref data;
      let templateData : gmap string Value :=
        list_to_map
          [ ("Digimons", VSummaries (services.Content data));
            ("Query", VString query);
            ("Exact", VBool exact);
            ("Total", VInt (services.TotalElements data)) ] in
      mret (RenderTemplate "search_digimon" (Map templateData)).

(** The options [DisplayFilter] builds from the form. *)
Definition filterOptions (r : Request) : services.DigimonListOptions :=
  let level := gostrings.TrimSpace (FormValue r "level") in
  let attribute := gostrings.TrimSpace (FormValue r "attribute") in
  let xAntibodyStr := FormValue r "xantibody" in
  {| services.Name := ""; services.Exact := false;
     services.Attribute_ := if bool_decide (attribute ≠ "") then attribute else "";
     services.XAntibody :=
       if bool_decide (xAntibodyStr = "true") || bool_decide (xAntibodyStr = "on")
       then Some true else None;
     services.Level_ := if bool_decide (level ≠ "") then level else "";
     services.Page := 0;
     services.PageSize := 100 |}.

Definition DisplayFilter (r : Request) : Handler Response :=
  let ctx := createContext in
  match ParseForm r with
  | Some _ => http_Error "Erreur parsing formulaire" http.StatusBadRequest
  | None =>
      let level := gostrings.TrimSpace (FormValue r "level") in
      let attribute := gostrings.TrimSpace (FormValue r "attribute") in
      let xAntibodyStr := FormValue r "xantibody" in
      _ ← Printf ("Filtres - Level: " +:+ level +:+ ", Attribute: " +:+ attribute
                  +:+ ", XAntibody: " +:+ xAntibodyStr);
      let opts := filterOptions r in
      '(data, dataStatusCode, dataError) ←
        call (services.GetAllDigimons env ctx (Some opts));
      if bool_decide (dataStatusCode ≠ http.StatusOK) || bool_decide (dataError ≠ None) then
        line ← Error_ dataError;
        _ ← Printf ("Erreur DisplayFilter - " +:+ line);
        msg ← Error_ dataError;
        http_Error (service_error dataStatusCode msg) dataStatusCode
      else
        data ← deref data;
        let templateData : gmap string Value :=
          list_to_map
            [ ("Digimons", VSummaries (services.Content data));
              ("Level", VString level);
              ("Attribute", VString attribute);
              ("XAntibody",
                VBool (bool_decide (xAntibodyStr = "true")
                       || bool_decide (xAntibodyStr = "on")));
              ("Total", VInt (services.TotalElements data));
              ("TotalPages", VInt (services.TotalPages data)) ] in
        mret (RenderTemplate "filter_digimons" (Map templateData))
  end.

(** The local pass of [DisplayFilterAdvanced]: the loop over
    [data.Content] that appends to [validDigimons]. *)
Definition validDigimons (levels attributes : list string) (xAntibodyStr : string)
    (content : list services.DigimonSummary) : list services.DigimonSummary :=
  fold_left
    (fun validDigimons digimon =>
       if bool_decide (length levels = 0%nat)
          && bool_decide (length attributes = 0%nat)
          && bool_decide (xAntibodyStr = "")
       then validDigimons ++ [digimon]
       else validDigimons)
    content [].

Definition DisplayFilterAdvanced (r : Request) : Handler Response :=
  let ctx := createContext in
  match ParseForm r with
  | Some _ => http_Error "Erreur parsing formulaire" http.StatusBadRequest
  | None =>
      let opts :=
        {| services.Name := ""; services.Exact := false; services.Attribute_ := "";
           services.XAntibody := None; services.Level_ := ""; services.Page := 0;
           services.PageSize := 500 |} in
      '(data, dataStatusCode, dataError) ←
        call (services.GetAllDigimons env ctx (Some opts));
      if bool_decide (dataStatusCode ≠ http.StatusOK) || bool_decide (dataError ≠ None) then
        line ← Error_ dataError;
        _ ← Printf ("Erreur DisplayFilterAdvanced - " +:+ line);
        msg ← Error_ dataError;
        http_Error (service_error dataStatusCode msg) dataStatusCode
      else
        let levels := Form r !!! "levels" in
        let attributes := Form r !!! "attributes" in
        let xAntibodyStr := FormValue r "xantibody" in
        data ← deref data;
        let valid := validDigimons levels attributes xAntibodyStr (services.Content data) in
        let templateData : gmap string Value :=
          list_to_map
            [ ("Digimons", VSummaries valid);
              ("Levels", VStrings levels);
              ("Attributes", VStrings attributes);
              ("XAntibody",
                VBool (bool_decide (xAntibodyStr = "true")
                       || bool_decide (xAntibodyStr = "on")));
              ("Total", VInt (Z.of_nat (length valid))) ] in
        mret (RenderTemplate "filter_digimons_advanced" (Map templateData))
  end.

Definition DisplayDigimonDetails (r : Request) : Handler Response :=
  let ctx := createContext in
  let idStr := url.Get (Query r) "id" in
  if bool_decide (idStr = "") then
    http_Error "ID manquant" http.StatusBadRequest
  else
    match strconv.Atoi idStr with
    | None => http_Error "ID invalide" http.StatusBadRequest
    | Some id =>
        '(digimon, statusCode, err) ← call (services.GetDigimonByID env ctx id);
        if bool_decide (statusCode ≠ http.StatusOK) || bool_decide (err ≠ None) then
          if bool_decide (statusCode = http.StatusNotFound) then
            http_Error "Digimon non trouvé" http.StatusNotFound
          else
            msg ← Error_ err;
            http_Error (service_error statusCode msg) statusCode
        else
          mret (RenderTemplate "digimon_details" (DigimonPointer digimon))
    end.

Definition DisplayDigimonDetailsByName (r : Request) : Handler Response :=
  let ctx := createContext in
  let name := url.Get (Query r) "name" in
  if bool_decide (name = "") then
    http_Error "Nom manquant" http.StatusBadRequest
  else
    '(digimon, statusCode, err) ← call (services.GetDigimonByName env ctx name);
    if bool_decide (statusCode ≠ http.StatusOK) || bool_decide (err ≠ None) then
      if bool_decide (statusCode = http.StatusNotFound) then
        http_Error "Digimon non trouvé" http.StatusNotFound
      else
        msg ← Error_ err;
        http_Error (service_error statusCode msg) statusCode
    else
      mret (RenderTemplate "digimon_details" (DigimonPointer digimon)).

Definition DisplayDigimonsByAttribute (r : Request) : Handler Response :=
  let ctx := createContext in
  let attributeName := url.Get (Query r) "attribute" in
  if bool_decide (attributeName = "") then
    http_Error "Attribut manquant" http.StatusBadRequest
  else
    '(attribute, statusCode, err) ←
      call (services.GetAttributeByName env ctx attributeName);
    if bool_decide (statusCode ≠ http.StatusOK) || bool_decide (err ≠ None) then
      msg ← Error_ err;
      http_Error (service_error statusCode msg) statusCode
    else
      attribute ← deref attribute;
      let templateData : gmap string Value :=
        list_to_map
          [ ("Attribute", VString (services.Attribute_Attribute attribute));
            ("Digimons", VSummaries (services.Attribute_Digimons attribute));
            ("Total",
              VInt (Z.of_nat (length (services.Attribute_Digimons attribute)))) ] in
      mret (RenderTemplate "digimons_by_attribute" (Map templateData)).

Definition DisplayDigimonsByLevel (r : Request) : Handler Response :=
  let ctx := createContext in
  let levelName := url.Get (Query r) "level" in
  if bool_decide (levelName = "") then
    http_Error "Niveau manquant" http.StatusBadRequest
  else
    '(level, statusCode, err) ← call (services.GetLevelByName env ctx levelName);
    if bool_decide (statusCode ≠ http.StatusOK) || bool_decide (err ≠ None) then
      msg ← Error_ err;
      http_Error (service_error statusCode msg) statusCode
    else
      level ← deref level;
      let templateData : gmap string Value :=
        list_to_map
          [ ("Level", VString (services.Level_Level level));
            ("Digimons", VSummaries (services.Level_Digimons level));
            ("Total", VInt (Z.of_nat (length (services.Level_Digimons level)))) ] in
      mret (RenderTemplate "digimons_by_level" (Map templateData)).

End WithEnv.

Definition GetAvailableLevels : list string :=
  [ "Fresh"; "In-Training"; "Rookie"; "Champion"; "Ultimate"; "Mega"; "Ultra";
    "Armor" ].

Definition GetAvailableAttributes : list string :=
  [ "Vaccine"; "Data"; "Virus"; "Free"; "Unknown" ].

Definition DisplayFilterForm (r : Request) : Handler Response :=
  let templateData : gmap string Value :=
    list_to_map
      [ ("Levels", VStrings GetAvailableLevels);
        ("Attributes", VStrings GetAvailableAttributes) ] in
  mret (RenderTemplate "filter_form" (Map templateData)).

(** [TestDisplay], of [test.controllers.go]: prints the form to the
    standard output and renders the sample form with no data. *)
Definition TestDisplay (r : Request) : Handler Response :=
  _ ← Print ("Key query : " +:+ FormValue r "query" +:+ nl);
  _ ← Print ("Key select : " +:+ FormValue r "select" +:+ nl);
  _ ← Print ("Key check : " +:+ FormValue r "check" +:+ nl);
  _ ← Print ("Key check_multip : " +:+ fmt.strings (Form r !!! "check_multip") +:+ nl);
  _ ← Print ("Key radio : " +:+ FormValue r "radio" +:+ nl +:+ nl);
  _ ← Print (fmt.strings (Form r !!! "check_multip") +:+ nl);
  mret (RenderTemplate "exemple_formulaire" Nil).

End controllers.

(* ================================================================= *)
(** ** The specification's side *)

Module spec.

(** A run of [runes]: members of the list, one after the other. *)
Inductive run (runes : list string) : string -> Prop :=
| run_nil : run runes ""
| run_cons (w s : string) :
    w ∈ runes -> run runes s -> run runes (w +:+ s).

(** A run of white space: encodings of space code points. *)
Definition spaces : string -> Prop := run gostrings.space_runes.

(** [t] is [s] without its surrounding white space: what was cut at
    both ends is white space, and [t] neither starts nor ends with a
    space. *)
Definition trimmed (s t : string) : Prop :=
  (exists pre post, s = pre +:+ t +:+ post /\ spaces pre /\ spaces post)
  /\ gostrings.leading gostrings.space_runes t = None
  /\ gostrings.leading (map String.rev gostrings.space_runes) (String.rev t) = None.

(** An optional query parameter. *)
Definition param (present : bool) (key value : string) : list (string * string) :=
  if present then [(key, value)] else [].

(** The parameters of a listing request, as the specification lists
    them for a [ListQuery], in the order of their names. *)
Definition parameters (opts : services.DigimonListOptions) : list (string * string) :=
  param (bool_decide (services.Attribute_ opts ≠ "")) "attribute" (services.Attribute_ opts)
  ++ param (services.Exact opts) "exact" "true"
  ++ param (bool_decide (services.Level_ opts ≠ "")) "level" (services.Level_ opts)
  ++ param (bool_decide (services.Name opts ≠ "")) "name" (services.Name opts)
  ++ param (bool_decide (services.Page opts > 0)) "page" (fmt.d (services.Page opts))
  ++ param (bool_decide (services.PageSize opts > 0)) "pageSize"
       (fmt.d (services.PageSize opts))
  ++ match services.XAntibody opts with
     | Some b => [("xAntibody", if b then "true" else "false")]
     | None => []
     end.

(** An outbound GET. *)
Definition outbound (ctx : context.Context) (url raw : string) : http.Request :=
  {| http.Ctx := ctx; http.Method := "GET"; http.URL := url;
     http.RawQuery := raw |}.

(** The request of a listing: a GET of [/digimon] under the base URL,
    bound to the caller's context, with the given parameters. *)
Definition listing (ctx : context.Context) (sent : list (string * string))
  : http.Request :=
  outbound ctx "https://digi-api.com/api/v1/digimon" (url.encode sent).

(** The request of a lookup: a GET of the given path under the base
    URL, nothing set in the query. *)
Definition lookup (ctx : context.Context) (path : string) : http.Request :=
  outbound ctx ("https://digi-api.com/api/v1" +:+ path) "".

(** The contract of a fetch: what the three results are for each way
    the round trip can end. *)
Inductive contract {T : Type} (decode : string -> string + T)
  : http.RoundTrip -> services.Result T -> Prop :=
| transport_failure (err : string) :
    contract decode (http.Failed err)
      (None, 500, Some ("erreur requête HTTP: " +:+ err))
| unexpected_status (code : Z) (body : string) :
    code ≠ 200 ->
    contract decode (http.Answered code body)
      (None, code, Some ("code HTTP inattendu: " +:+ fmt.d code))
| decode_failure (body err : string) :
    decode body = inl err ->
    contract decode (http.Answered 200 body)
      (None, 500, Some ("erreur décodage JSON: " +:+ err))
| success (body : string) (v : T) :
    decode body = inr v ->
    contract decode (http.Answered 200 body) (Some v, 200, None).

(** A fetch that sends [req] honours the contract: once the request
    is created its results are those of the contract, and a non-nil
    result comes from a 200 that decoded, from nothing else. *)
Definition honours {T : Type} (env : services.Env) (decode : string -> string + T)
    (req : http.Request) (res : services.Result T) : Prop :=
  let answer := services.round_trip env services.httpClient req in
  (services.request_error env (http.Ctx req) (http.Method req) (http.URL req) = None ->
   contract decode answer res)
  /\ (forall v, res.1.1 = Some v ->
       exists body, answer = http.Answered 200 body /\ decode body = inr v).

(** The invariant of the three results of a service. *)
Definition coherent {T : Type} (r : services.Result T) : Prop :=
  (r.2 = None <-> r.1.2 = 200) /\ (is_Some r.1.1 <-> r.2 = None).

(** The error mapping rule of a handler [h] whose service call is
    [svc]: a status other than 200 that a response can carry, one from
    100 to 999, is the status of the response, with the generic
    message, or with the "not found" one where the handler tells 404
    apart. *)
Definition forwards {T : Type} (tells_404 : bool)
    (svc : Call (services.Result T)) (h : server.Handler server.Response) : Prop :=
  forall code, svc.1.1.2 = code -> code ≠ 200 -> 100 <= code <= 999 ->
    exists msg, svc.1.2 = Some msg /\
      h.1 = server.Returned
              (if tells_404 && bool_decide (code = 404)
               then server.Error "Digimon non trouvé" 404
               else server.Error
                      ("Erreur service - code: " +:+ fmt.d code +:+
                       String (ascii_of_nat 10) "" +:+ "message: " +:+ msg)
                      code).

(** Which form fields count as supplied: a field is supplied when the
    form has an entry under its name. *)
Definition supplied (r : server.Request) (field : string) : Prop :=
  is_Some (server.Form r !! field).

(** The names of the optional parameters of a listing, in the order of
    Go's [<] on strings. *)
Definition names : list string :=
  [ "attribute"; "exact"; "level"; "name"; "page"; "pageSize"; "xAntibody" ].

(** How often the byte [c] occurs in [s]. *)
Fixpoint occurrences (c : ascii) (s : string) : nat :=
  match s with
  | EmptyString => 0%nat
  | String d r => ((if Ascii.eqb c d then 1 else 0) + occurrences c r)%nat
  end.

(** The four kinds of answer the services decode. *)
Inductive kind : Type :=
| Page
| OneDigimon
| OneAttribute
| OneLevel.

(** The decoder of an answer of kind [k] fails on [body] with [err]. *)
Definition undecodable (env : services.Env) (k : kind) (body err : string) : Prop :=
  match k with
  | Page => services.decode_DigimonListResponse env body = inl err
  | OneDigimon => services.decode_Digimon env body = inl err
  | OneAttribute => services.decode_Attribute env body = inl err
  | OneLevel => services.decode_Level env body = inl err
  end.

(** The handlers of the application that call a service, each past its
    own checks of the request, with the URL text its request is created
    from, the kind of answer it decodes and whether it tells a 404
    apart. *)
Inductive asks (env : services.Env) (r : server.Request)
  : string -> kind -> bool -> server.Handler server.Response -> Prop :=
| asks_list :
    asks env r "https://digi-api.com/api/v1/digimon" Page false
      (controllers.DisplayListDigimons env r)
| asks_paginated :
    asks env r "https://digi-api.com/api/v1/digimon" Page false
      (controllers.DisplayListDigimonsWithPagination env r)
| asks_search :
    gostrings.TrimSpace (server.FormValue r "query") ≠ "" ->
    asks env r "https://digi-api.com/api/v1/digimon" Page false
      (controllers.DisplaySearch env r)
| asks_search_advanced :
    gostrings.TrimSpace (server.FormValue r "query") ≠ "" ->
    asks env r "https://digi-api.com/api/v1/digimon" Page false
      (controllers.DisplaySearchAdvanced env r)
| asks_filter :
    server.ParseForm r = None ->
    asks env r "https://digi-api.com/api/v1/digimon" Page false
      (controllers.DisplayFilter env r)
| asks_filter_advanced :
    server.ParseForm r = None ->
    asks env r "https://digi-api.com/api/v1/digimon" Page false
      (controllers.DisplayFilterAdvanced env r)
| asks_details (id : Z) :
    strconv.Atoi (url.Get (server.Query r) "id") = Some id ->
    asks env r ("https://digi-api.com/api/v1/digimon/" +:+ fmt.d id) OneDigimon true
      (controllers.DisplayDigimonDetails env r)
| asks_details_by_name :
    url.Get (server.Query r) "name" ≠ "" ->
    asks env r
      ("https://digi-api.com/api/v1/digimon/" +:+ url.Get (server.Query r) "name")
      OneDigimon true
      (controllers.DisplayDigimonDetailsByName env r)
| asks_by_attribute :
    url.Get (server.Query r) "attribute" ≠ "" ->
    asks env r
      ("https://digi-api.com/api/v1/attribute/" +:+ url.Get (server.Query r) "attribute")
      OneAttribute false
      (controllers.DisplayDigimonsByAttribute env r)
| asks_by_level :
    url.Get (server.Query r) "level" ≠ "" ->
    asks env r
      ("https://digi-api.com/api/v1/level/" +:+ url.Get (server.Query r) "level")
      OneLevel false
      (controllers.DisplayDigimonsByLevel env r).

(** What a lookup hands to the client when its request is created from
    the URL text [url] under [ctx]: nothing when the text is refused,
    else one request, a GET bound to [ctx] and created from that
    text. *)
Definition handed (env : services.Env) (ctx : context.Context) (url : string)
    (l : list http.Request) : Prop :=
  match services.request_error env ctx "GET" url with
  | Some _ => l = []
  | None =>
      exists req, l = [req] /\ http.Ctx req = ctx /\ http.Method req = "GET"
                  /\ http.URL req = url
  end.

(** The result of a service whose request could not be created, and no
    call of the client. *)
Definition uncreated {T : Type} (err : string) (svc : Call (services.Result T)) : Prop :=
  svc = ((None, 500, Some ("erreur création requête: " +:+ err)), []).

(** Calls of the client that stay within bounds: at most one, and the
    request a GET created from a URL text under the base, bound to a
    context that times out ten seconds (counted in nanoseconds) after
    it is made from the background context. *)
Definition within_bounds (l : list http.Request) : Prop :=
  (length l <= 1)%nat
  /\ forall req, req ∈ l ->
       http.Method req = "GET"
       /\ http.Ctx req = context.WithTimeout context.Background 10000000000
       /\ String.prefix "https://digi-api.com/api/v1/" (http.URL req) = true.

(** The handler functions of package [controllers], whatever the
    request: all that the routes register, next to the file server of
    the library for the static files. *)
Inductive handler (env : services.Env) (r : server.Request)
  : server.Handler server.Response -> Prop :=
| is_list : handler env r (controllers.DisplayListDigimons env r)
| is_paginated : handler env r (controllers.DisplayListDigimonsWithPagination env r)
| is_search : handler env r (controllers.DisplaySearch env r)
| is_search_advanced : handler env r (controllers.DisplaySearchAdvanced env r)
| is_filter : handler env r (controllers.DisplayFilter env r)
| is_filter_advanced : handler env r (controllers.DisplayFilterAdvanced env r)
| is_details : handler env r (controllers.DisplayDigimonDetails env r)
| is_details_by_name : handler env r (controllers.DisplayDigimonDetailsByName env r)
| is_by_attribute : handler env r (controllers.DisplayDigimonsByAttribute env r)
| is_by_level : handler env r (controllers.DisplayDigimonsByLevel env r)
| is_filter_form : handler env r (controllers.DisplayFilterForm r)
| is_test : handler env r (controllers.TestDisplay r).

End spec.

(* ================================================================= *)
(** ** Sample data and sample worlds *)

Module sample.

Definition agumon : services.DigimonSummary :=
  {| services.DigimonSummary_ID := 289;
     services.DigimonSummary_Name := "Agumon";
     services.DigimonSummary_Href := "https://digi-api.com/api/v1/digimon/289";
     services.DigimonSummary_Image := "https://digi-api.com/images/digimon/w/Agumon.png" |}.

Definition gabumon : services.DigimonSummary :=
  {| services.DigimonSummary_ID := 362;
     services.DigimonSummary_Name := "Gabumon";
     services.DigimonSummary_Href := "https://digi-api.com/api/v1/digimon/362";
     services.DigimonSummary_Image := "https://digi-api.com/images/digimon/w/Gabumon.png" |}.

Definition page : services.DigimonListResponse :=
  {| services.Content := [agumon; gabumon];
     services.Pageable_ :=
       {| services.Pageable_Sort :=
            {| services.Sorted := false; services.Unsorted := true;
               services.Sort_Empty := true |};
          services.PageNumber := 0; services.Pageable_PageSize := 2;
          services.Offset := 0; services.Paged := true; services.Unpaged := false |};
     services.TotalElements := 2; services.TotalPages := 1;
     services.Last := true; services.First := true; services.Size := 2;
     services.Number := 0; services.NumberOfElements := 2;
     services.Empty := false |}.

Definition digimon : services.Digimon :=
  {| services.Digimon_ID := 289; services.Digimon_Name := "Agumon";
     services.Digimon_XAntibody := false; services.Digimon_Images := [];
     services.Digimon_Levels := []; services.Digimon_Types := [];
     services.Digimon_Attributes := []; services.Digimon_Fields := [];
     services.Digimon_Skills := []; services.Digimon_Descriptions := [] |}.

Definition vaccine : services.Attribute :=
  {| services.Attribute_ID := 1; services.Attribute_Attribute := "Vaccine";
     services.Attribute_Digimons := [agumon] |}.

Definition rookie : services.Level :=
  {| services.Level_ID := 4; services.Level_Level := "Rookie";
     services.Level_Digimons := [agumon; gabumon] |}.

(** A decoder that fails on an empty body and yields [v] otherwise. *)
Definition decoder {T : Type} (v : T) (body : string) : string + T :=
  if bool_decide (body = "") then inl "EOF" else inr v.

(** A world where every request is accepted and every round trip ends
    as [answer]. *)
Definition world (answer : http.RoundTrip) : services.Env :=
  {| services.request_error := fun _ _ _ => None;
     services.round_trip := fun _ _ => answer;
     services.decode_Digimon := decoder digimon;
     services.decode_DigimonListResponse := decoder page;
     services.decode_Attribute := decoder vaccine;
     services.decode_Level := decoder rookie |}.

Definition up : services.Env := world (http.Answered 200 "{}").
Definition missing : services.Env := world (http.Answered 404 "").
Definition garbled : services.Env := world (http.Answered 200 "").
Definition down : services.Env := world (http.Failed "connection refused").

(** An incoming request with the given URL query and form. *)
Definition request (query form : list (string * list string)) : server.Request :=
  {| server.Query := list_to_map query; server.ParseForm := None;
     server.Form := list_to_map form |}.

(** A search for "agu" with blanks around it and the exact box
    ticked, on page 2, with an id, a name, an attribute and a level in
    the URL. *)
Definition visit : server.Request :=
  request
    [ ("page", ["2"]); ("id", ["289"]); ("name", ["Agumon"]);
      ("attribute", ["Vaccine"]); ("level", ["Rookie"]) ]
    [ ("query", ["  agu "]); ("exact", ["on"]); ("level", ["Rookie"]) ].

(** A search whose query is blank. *)
Definition blank_search : server.Request :=
  request [] [ ("query", ["   "]) ].

(** An advanced-filter form that carries the [xantibody] field with an
    empty value, as a form does for a selector left on its empty
    option. *)
Definition blank_xantibody : server.Request :=
  request [] [ ("xantibody", [""]) ].

(** An advanced-filter form with one level ticked. *)
Definition rookies : server.Request :=
  request [] [ ("levels", ["Rookie"]) ].

(** Options with every field set. *)
Definition options : services.DigimonListOptions :=
  {| services.Name := "agu"; services.Exact := true;
     services.Attribute_ := "Vaccine"; services.XAntibody := Some false;
     services.Level_ := "Rookie"; services.Page := 2; services.PageSize := 50 |}.

(** A lookup of the id -5. *)
Definition negative_id : server.Request :=
  request [ ("id", ["-5"]) ] [].

(** Whether a byte is an ASCII control character. *)
Definition is_control (c : ascii) : bool :=
  (nat_of_ascii c <? 32)%nat || (nat_of_ascii c =? 127)%nat.

Fixpoint has_control (s : string) : bool :=
  match s with
  | EmptyString => false
  | String c rest => is_control c || has_control rest
  end.

(** A world like [up] where a request is refused when its URL text
    holds a control character, as [net/url] refuses it. *)
Definition strict : services.Env :=
  {| services.request_error := fun _ _ url =>
       if has_control url then Some "invalid control character in URL"
       else None;
     services.round_trip := fun _ _ => http.Answered 200 "{}";
     services.decode_Digimon := decoder digimon;
     services.decode_DigimonListResponse := decoder page;
     services.decode_Attribute := decoder vaccine;
     services.decode_Level := decoder rookie |}.

(** A name with a line feed in it. *)
Definition broken_name : string := "Agu" +:+ String (ascii_of_nat 10) "mon".

(** Lookups by that name. *)
Definition broken_lookup : server.Request :=
  request [ ("name", [broken_name]); ("attribute", [broken_name]);
            ("level", [broken_name]) ] [].

(** A world where upstream answers with the status line 099. *)
Definition odd : services.Env := world (http.Answered 99 "").

(** A request whose form does not parse. *)
Definition broken_form : server.Request :=
  {| server.Query := ∅; server.ParseForm := Some "invalid URL escape";
     server.Form := ∅ |}.

(** The search of [visit] with the blanks around the query gone. *)
Definition tidy_visit : server.Request :=
  request [] [ ("query", ["agu"]); ("exact", ["on"]) ].

(** A filter form with a level and an attribute chosen and the
    X-Antibody box ticked. *)
Definition choice : server.Request :=
  request [] [ ("level", ["Rookie"]); ("attribute", ["Vaccine"]);
               ("xantibody", ["on"]) ].

(** A lookup by the name "289". *)
Definition named_289 : server.Request :=
  request [ ("name", ["289"]) ] [].

End sample.

(* ================================================================= *)
(** * The library functions at sample inputs *)

Example Atoi_samples :
  strconv.Atoi "289" = Some 289
  /\ strconv.Atoi "-5" = Some (-5)
  /\ strconv.Atoi "+7" = Some 7
  /\ strconv.Atoi "007" = Some 7
  /\ strconv.Atoi "0" = Some 0
  /\ strconv.Atoi "" = None
  /\ strconv.Atoi "-" = None
  /\ strconv.Atoi "abc" = None
  /\ strconv.Atoi "12a" = None
  /\ strconv.Atoi " 12" = None
  /\ strconv.Atoi "1_000" = None
  /\ strconv.Atoi "9223372036854775807" = Some 9223372036854775807
  /\ strconv.Atoi "9223372036854775808" = None
  /\ strconv.Atoi "-9223372036854775808" = Some (-9223372036854775808)
  /\ strconv.Atoi "-9223372036854775809" = None.
Proof. repeat split; vm_compute; reflexivity. Qed.

Example TrimSpace_samples :
  gostrings.TrimSpace "  agu " = "agu"
  /\ gostrings.TrimSpace "   " = ""
  /\ gostrings.TrimSpace "" = ""
  /\ gostrings.TrimSpace "war greymon" = "war greymon"
  /\ gostrings.TrimSpace
       (String (ascii_of_nat 9) " x y" +:+ String (ascii_of_nat 10) "")
     = "x y"
  /\ gostrings.TrimSpace
       (gostrings.EncodeRune 0x2003 +:+ "x" +:+ gostrings.EncodeRune 0xA0 +:+ " ")
     = "x"
  /\ gostrings.TrimSpace (String (ascii_of_nat 160) "x") = String (ascii_of_nat 160) "x".
Proof. repeat split; vm_compute; reflexivity. Qed.

Example Encode_samples :
  url.QueryEscape "a b&c=d/e~f-g_h.i" = "a+b%26c%3Dd%2Fe~f-g_h.i"
  /\ url.Encode (services.listQuery sample.options)
     = "attribute=Vaccine&exact=true&level=Rookie&name=agu&page=2&pageSize=50&xAntibody=false"
  /\ url.Encode (services.listQuery services.zeroOptions) = ""
  /\ url.Encode (url.Add "k" "2" (url.Add "k" "1" ∅)) = "k=1&k=2".
Proof. repeat split; vm_compute; reflexivity. Qed.

(* ================================================================= *)
(** * Facts about strings *)

Section StringFacts.
Implicit Types s t w : string.

Lemma string_app_cons c s t : String c s +:+ t = String c (s +:+ t).
Proof. reflexivity. Qed.

Lemma string_app_nil_l s : "" +:+ s = s.
Proof. reflexivity. Qed.

Lemma string_app_nil_r s : s +:+ "" = s.
Proof. induction s as [|c s IH]; [done | by rewrite string_app_cons, IH]. Qed.

Lemma string_app_assoc s t u : (s +:+ t) +:+ u = s +:+ t +:+ u.
Proof. induction s as [|c s IH]; [done | by rewrite !string_app_cons, IH]. Qed.

Lemma string_length_app s t : String.length (s +:+ t) = (String.length s + String.length t)%nat.
Proof. induction s as [|c s IH]; [done | rewrite string_app_cons; simpl; by rewrite IH]. Qed.

Lemma string_rev_app_eq s t : String.rev_app s t = String.rev s +:+ t.
Proof.
  unfold String.rev. revert t.
  induction s as [|c s IH]; intros t; simpl; [done |].
  rewrite (IH (String c "")), (IH (String c t)), string_app_assoc. done.
Qed.

Lemma string_rev_cons c s : String.rev (String c s) = String.rev s +:+ String c "".
Proof. unfold String.rev at 1. simpl. apply string_rev_app_eq. Qed.

Lemma string_rev_app s t : String.rev (s +:+ t) = String.rev t +:+ String.rev s.
Proof.
  induction s as [|c s IH].
  - by rewrite string_app_nil_l, string_app_nil_r.
  - by rewrite string_app_cons, !string_rev_cons, IH, string_app_assoc.
Qed.

Lemma string_rev_involutive s : String.rev (String.rev s) = s.
Proof.
  induction s as [|c s IH]; [done |].
  by rewrite string_rev_cons, string_rev_app, IH.
Qed.

Lemma string_length_rev s : String.length (String.rev s) = String.length s.
Proof.
  induction s as [|c s IH]; [done |].
  rewrite string_rev_cons, string_length_app, IH. simpl. lia.
Qed.

Lemma string_prefix_drop w s :
  String.prefix w s = true -> s = w +:+ gostrings.drop (String.length w) s.
Proof.
  revert s. induction w as [|c w IH]; intros [|d s]; simpl; try done.
  destruct (ascii_dec c d) as [->|]; [|done].
  intros H. by rewrite string_app_cons, <- (IH s H).
Qed.

Lemma string_prefix_app w s t : String.prefix w s = true -> String.prefix w (s +:+ t) = true.
Proof.
  revert s. induction w as [|c w IH]; intros [|d s]; try done.
  - by destruct t.
  - rewrite string_app_cons. simpl. destruct (ascii_dec c d); [apply IH | done].
Qed.

Lemma string_length_drop n s : (String.length (gostrings.drop n s) = String.length s - n)%nat.
Proof. revert s. induction n as [|n IH]; intros [|c s]; simpl; try done. Qed.
End StringFacts.

Section Trim.
Variable runes : list string.
Hypothesis runes_nonempty : Forall (fun w => w ≠ "") runes.

Lemma run_app s t : spec.run runes s -> spec.run runes t -> spec.run runes (s +:+ t).
Proof.
  intros Hs Ht. induction Hs as [|w s Hw Hs IH]; [exact Ht |].
  rewrite string_app_assoc. by constructor.
Qed.

Lemma leading_Some s w :
  gostrings.leading runes s = Some w -> w ∈ runes /\ String.prefix w s = true.
Proof.
  unfold gostrings.leading. intros H. apply find_some in H as [H1 H2].
  split; [by apply list_elem_of_In | done].
Qed.

Lemma leading_None s w :
  gostrings.leading runes s = None -> w ∈ runes -> String.prefix w s = false.
Proof.
  unfold gostrings.leading. intros H Hw.
  apply (find_none _ _ H). by apply list_elem_of_In.
Qed.

Lemma trim_split fuel s :
  exists pre, s = pre +:+ gostrings.trim runes fuel s /\ spec.run runes pre.
Proof.
  revert s. induction fuel as [|fuel IH]; intros s; simpl.
  - exists "". split; [done | constructor].
  - destruct (gostrings.leading runes s) as [w|] eqn:E.
    + apply leading_Some in E as [Hw Hp].
      destruct (IH (gostrings.drop (String.length w) s)) as (pre & Hs & Hpre).
      exists (w +:+ pre). split; [| by constructor].
      rewrite string_app_assoc, <- Hs. by apply string_prefix_drop.
    + exists "". split; [done | constructor].
Qed.

Lemma trim_done fuel s :
  (String.length s <= fuel)%nat ->
  gostrings.leading runes (gostrings.trim runes fuel s) = None.
Proof.
  revert s. induction fuel as [|fuel IH]; intros s Hlen; simpl.
  - destruct s; [| simpl in Hlen; lia].
    unfold gostrings.leading. 
    destruct (find _ runes) as [w|] eqn:E; [| done].
    apply find_some in E as [Hin Hp].
    rewrite Forall_forall in runes_nonempty.
    apply list_elem_of_In, runes_nonempty in Hin. by destruct w.
  - destruct (gostrings.leading runes s) as [w|] eqn:E; [| done].
    apply IH. apply leading_Some in E as [Hw Hp].
    rewrite string_length_drop.
    rewrite Forall_forall in runes_nonempty. apply runes_nonempty in Hw.
    destruct w; [done |]. simpl. lia.
Qed.
End Trim.

Lemma space_runes_nonempty : Forall (fun w => w ≠ "") gostrings.space_runes.
Proof. unfold gostrings.space_runes. repeat constructor; done. Qed.

Lemma rev_runes_nonempty : Forall (fun w => w ≠ "") (map String.rev gostrings.space_runes).
Proof. unfold gostrings.space_runes. repeat constructor; done. Qed.

Lemma run_rev runes s :
  spec.run (map String.rev runes) s -> spec.run runes (String.rev s).
Proof.
  induction 1 as [|w s Hw _ IH]; [constructor |].
  rewrite string_rev_app. apply run_app; [done |].
  apply list_elem_of_fmap in Hw as (v & -> & Hv).
  rewrite string_rev_involutive, <- (string_app_nil_r v). constructor; [done | constructor].
Qed.

Lemma TrimSpace_trimmed s : spec.trimmed s (gostrings.TrimSpace s).
Proof.
  unfold gostrings.TrimSpace.
  set (l := gostrings.TrimLeft s).
  destruct (trim_split gostrings.space_runes (String.length s) s) as (pre & Hs & Hpre).
  fold (gostrings.TrimLeft s) in Hs. fold l in Hs.
  destruct (trim_split (map String.rev gostrings.space_runes)
              (String.length l) (String.rev l)) as (post & Hl & Hpost).
  assert (Hl' : l = gostrings.TrimRight l +:+ String.rev post).
  { unfold gostrings.TrimRight. rewrite <- string_rev_app, <- Hl. by rewrite string_rev_involutive. }
  assert (Hlead : gostrings.leading gostrings.space_runes l = None).
  { apply trim_done; [apply space_runes_nonempty | done]. }
  split; [| split].
  - exists pre, (String.rev post). split; [| split].
    + by rewrite <- Hl'.
    + done.
    + by apply run_rev.
  - destruct (gostrings.leading _ (gostrings.TrimRight l)) as [w|] eqn:E; [| done].
    apply leading_Some in E as [Hw Hp].
    apply (string_prefix_app _ _ (String.rev post)) in Hp. rewrite <- Hl' in Hp.
    by rewrite (leading_None _ _ _ Hlead Hw) in Hp.
  - unfold gostrings.TrimRight. rewrite string_rev_involutive.
    apply trim_done; [apply rev_runes_nonempty |]. by rewrite string_length_rev.
Qed.

(* ================================================================= *)
(** * The transport client *)

(** One proof script serves the four fetches, which differ in their
    decoder only. *)
Ltac fetch_cases :=
  unfold services.NewRequestWithContext;
  destruct (services.request_error _ _ _ _) as [rerr|] eqn:Hreq; simpl;
  [| destruct (services.round_trip _ _ _) as [terr|code body] eqn:Hrt; simpl;
     [| case_bool_decide; simpl;
        [| match goal with
           | H : ?c = http.StatusOK |- _ => subst c
           end;
           first
             [ destruct (services.decode_Digimon _ _) as [derr|v] eqn:Hdec
             | destruct (services.decode_DigimonListResponse _ _) as [derr|v] eqn:Hdec
             | destruct (services.decode_Attribute _ _) as [derr|v] eqn:Hdec
             | destruct (services.decode_Level _ _) as [derr|v] eqn:Hdec ];
           simpl]]].

Section Services.
Variable env : services.Env.
Implicit Types (ctx : context.Context) (url name : string) (id : Z).

Ltac coherent_cases :=
  unfold spec.coherent; fetch_cases; simpl;
  (split; split;
   let K := fresh in intros K; first [done | by destruct K | by inversion K]).

Lemma fetchDigimon_coherent ctx url : spec.coherent (services.fetchDigimon env ctx url).1.
Proof. unfold services.fetchDigimon. coherent_cases. Qed.

Lemma fetchAttribute_coherent ctx url : spec.coherent (services.fetchAttribute env ctx url).1.
Proof. unfold services.fetchAttribute. coherent_cases. Qed.

Lemma fetchLevel_coherent ctx url : spec.coherent (services.fetchLevel env ctx url).1.
Proof. unfold services.fetchLevel. coherent_cases. Qed.

Lemma GetAllDigimons_coherent ctx opts : spec.coherent (services.GetAllDigimons env ctx opts).1.
Proof. unfold services.GetAllDigimons. coherent_cases. Qed.

Ltac honours_cases :=
  unfold spec.honours, spec.outbound; simpl; fetch_cases;
  (split;
   [ let K := fresh in intros K; first [done | by constructor]
   | let K := fresh in intros ? K; first [done | inversion K; subst; eauto] ]).

Lemma fetchDigimon_honours ctx url :
  spec.honours env (services.decode_Digimon env) (spec.outbound ctx url "")
    (services.fetchDigimon env ctx url).1.
Proof. unfold services.fetchDigimon. honours_cases. Qed.

Lemma fetchAttribute_honours ctx url :
  spec.honours env (services.decode_Attribute env) (spec.outbound ctx url "")
    (services.fetchAttribute env ctx url).1.
Proof. unfold services.fetchAttribute. honours_cases. Qed.

Lemma fetchLevel_honours ctx url :
  spec.honours env (services.decode_Level env) (spec.outbound ctx url "")
    (services.fetchLevel env ctx url).1.
Proof. unfold services.fetchLevel. honours_cases. Qed.

Lemma GetAllDigimons_honours ctx opts :
  spec.honours env (services.decode_DigimonListResponse env)
    (spec.outbound ctx "https://digi-api.com/api/v1/digimon"
       (match opts with Some o => url.Encode (services.listQuery o) | None => "" end))
    (services.GetAllDigimons env ctx opts).1.
Proof. unfold services.GetAllDigimons. destruct opts; honours_cases. Qed.
End Services.

(* ================================================================= *)
(** * The query of a listing *)

(** What [Encode] writes for the query [GetAllDigimons] builds: the
    parameters of the specification, in the order of their names. *)
Lemma pairs_listQuery opts : url.pairs (services.listQuery opts) = spec.parameters opts.
Proof.
  destruct opts as [name exact attribute x level page pageSize].
  unfold services.listQuery, spec.parameters.
  cbn [services.Name services.Exact services.Attribute_ services.XAntibody
       services.Level_ services.Page services.PageSize].
  generalize (fmt.d page) (fmt.d pageSize). intros sp sps.
  destruct (bool_decide (name ≠ "")), exact, (bool_decide (attribute ≠ "")),
    x as [[]|], (bool_decide (level ≠ "")), (bool_decide (page > 0)),
    (bool_decide (pageSize > 0)); vm_compute; reflexivity.
Qed.

Lemma elem_of_param k v present key value :
  (k, v) ∈ spec.param present key value <-> present = true /\ k = key /\ v = value.
Proof.
  destruct present; simpl.
  - rewrite list_elem_of_singleton. split; [by intros [= -> ->] | by intros (_ & -> & ->)].
  - rewrite elem_of_nil. split; [done | by intros [? _]].
Qed.

(** Membership in the parameters of the specification, name by name. *)
Lemma elem_of_parameters k v opts :
  (k, v) ∈ spec.parameters opts <->
    (k = "attribute" /\ services.Attribute_ opts ≠ "" /\ v = services.Attribute_ opts)
    \/ (k = "exact" /\ services.Exact opts = true /\ v = "true")
    \/ (k = "level" /\ services.Level_ opts ≠ "" /\ v = services.Level_ opts)
    \/ (k = "name" /\ services.Name opts ≠ "" /\ v = services.Name opts)
    \/ (k = "page" /\ services.Page opts > 0 /\ v = fmt.d (services.Page opts))
    \/ (k = "pageSize" /\ services.PageSize opts > 0
        /\ v = fmt.d (services.PageSize opts))
    \/ (k = "xAntibody" /\
        exists b : bool, services.XAntibody opts = Some b
                         /\ v = if b then "true" else "false").
Proof.
  unfold spec.parameters.
  rewrite !elem_of_app, !elem_of_param, !bool_decide_eq_true.
  assert (X : (k, v) ∈ match services.XAntibody opts with
                  | Some b => [("xAntibody", if b then "true" else "false")]
                  | None => []
                  end <-> k = "xAntibody" /\
        exists b : bool, services.XAntibody opts = Some b
                         /\ v = if b then "true" else "false").
  { destruct (services.XAntibody opts) as [b|].
    - rewrite list_elem_of_singleton. split.
      + intros [= -> ->]. eauto.
      + intros (-> & b' & [= <-] & ->). done.
    - rewrite elem_of_nil. split; [done | by intros (_ & ? & ? & _)]. }
  rewrite X. tauto.
Qed.

Section Listing.
Variable env : services.Env.
Implicit Types (ctx : context.Context) (opts : services.DigimonListOptions).

(** The upstream calls of a listing: none when the request cannot be
    created, one otherwise, with the encoded parameters. *)
Lemma GetAllDigimons_calls ctx opts :
  (services.GetAllDigimons env ctx (Some opts)).2 =
    match services.request_error env ctx "GET" "https://digi-api.com/api/v1/digimon" with
    | Some _ => []
    | None => [spec.listing ctx (spec.parameters opts)]
    end.
Proof.
  unfold services.GetAllDigimons, services.NewRequestWithContext.
  change (services.digimonAPIBaseURL +:+ "/digimon")
    with "https://digi-api.com/api/v1/digimon".
  change http.MethodGet with "GET".
  unfold url.Encode. rewrite pairs_listQuery.
  fetch_cases; reflexivity.
Qed.

Lemma fetchDigimon_calls ctx url :
  (services.fetchDigimon env ctx url).2 =
    match services.request_error env ctx "GET" url with
    | Some _ => []
    | None => [spec.outbound ctx url ""]
    end.
Proof.
  unfold services.fetchDigimon, services.NewRequestWithContext.
  change http.MethodGet with "GET".
  fetch_cases; reflexivity.
Qed.

End Listing.

(* ================================================================= *)
(** * The specification of the transport client *)

(** C1. For every options value passed to [GetAllDigimons], the one
    request it sends has the query string [Encode] writes for [sent],
    and [sent] holds [name] iff [Name] is non-empty, [exact=true] iff
    [Exact] is true, [attribute] iff [Attribute] is non-empty,
    [xAntibody] (as "true" or "false") iff the pointer is non-nil,
    [level] iff [Level] is non-empty, [page] iff [Page > 0],
    [pageSize] iff [PageSize > 0], and no parameter of another name. *)
Theorem GetAllDigimons_query_parameters
    (env : services.Env) (ctx : context.Context) (opts : services.DigimonListOptions) :
  let sent := url.pairs (services.listQuery opts) in
  (forall req, req ∈ (services.GetAllDigimons env ctx (Some opts)).2 <->
     services.request_error env ctx "GET" "https://digi-api.com/api/v1/digimon" = None
     /\ req = spec.listing ctx sent)
  /\ (forall v, ("name", v) ∈ sent <-> services.Name opts ≠ "" /\ v = services.Name opts)
  /\ (forall v, ("exact", v) ∈ sent <-> services.Exact opts = true /\ v = "true")
  /\ (forall v, ("attribute", v) ∈ sent <->
        services.Attribute_ opts ≠ "" /\ v = services.Attribute_ opts)
  /\ (forall v, ("xAntibody", v) ∈ sent <->
        exists b : bool, services.XAntibody opts = Some b
                         /\ v = if b then "true" else "false")
  /\ (forall v, ("level", v) ∈ sent <-> services.Level_ opts ≠ "" /\ v = services.Level_ opts)
  /\ (forall v, ("page", v) ∈ sent <->
        services.Page opts > 0 /\ v = fmt.d (services.Page opts))
  /\ (forall v, ("pageSize", v) ∈ sent <->
        services.PageSize opts > 0 /\ v = fmt.d (services.PageSize opts))
  /\ (forall k v, (k, v) ∈ sent ->
        k ∈ ["name"; "exact"; "attribute"; "xAntibody"; "level"; "page"; "pageSize"]).
Proof.
  intros sent. subst sent. rewrite pairs_listQuery.
  split.
  { intros req. rewrite GetAllDigimons_calls.
    destruct (services.request_error env _ _ _).
    - rewrite elem_of_nil. split; [done | by intros [? _]].
    - rewrite list_elem_of_singleton. split; [done | by intros [_ ?]]. }
  repeat apply conj;
    try (intros k v H; apply elem_of_parameters in H;
                     decompose [and or ex] H; subst k;
                     apply list_elem_of_In; simpl; auto 10);
    intros v; rewrite elem_of_parameters;
    (split;
     [ intros H; decompose [and or ex] H; clear H; first [discriminate | by eauto]
     | intros H;
       repeat first [ left; split; [reflexivity | exact H] | right ];
       try (split; [reflexivity | exact H]) ]).
Qed.

(** C6. Each fetch of the transport client honours the contract: a
    transport failure gives (nil, 500, error), a status other than 200
    gives (nil, that status, an error naming the code), a body that does
    not decode gives (nil, 500, error), and only a 200 that decodes
    gives a non-nil result. *)
Theorem fetch_contract
    (env : services.Env) (ctx : context.Context) (url : string)
    (opts : option services.DigimonListOptions) :
  spec.honours env (services.decode_Digimon env) (spec.outbound ctx url "")
    (services.fetchDigimon env ctx url).1
  /\ spec.honours env (services.decode_Attribute env) (spec.outbound ctx url "")
       (services.fetchAttribute env ctx url).1
  /\ spec.honours env (services.decode_Level env) (spec.outbound ctx url "")
       (services.fetchLevel env ctx url).1
  /\ spec.honours env (services.decode_DigimonListResponse env)
       (spec.outbound ctx "https://digi-api.com/api/v1/digimon"
          (match opts with
           | Some o => url.encode (url.pairs (services.listQuery o))
           | None => ""
           end))
       (services.GetAllDigimons env ctx opts).1.
Proof.
  split; [apply fetchDigimon_honours |].
  split; [apply fetchAttribute_honours |].
  split; [apply fetchLevel_honours | apply GetAllDigimons_honours].
Qed.

(** C10. The wrappers without a context are their counterparts at the
    background context. *)
Theorem Simple_wrappers
    (env : services.Env) (id : Z) (name : string)
    (opts : option services.DigimonListOptions) :
  services.GetDigimonByIDSimple env id
    = services.GetDigimonByID env context.Background id
  /\ services.GetDigimonByNameSimple env name
       = services.GetDigimonByName env context.Background name
  /\ services.GetAllDigimonsSimple env opts
       = services.GetAllDigimons env context.Background opts.
Proof. repeat split. Qed.

(* ================================================================= *)
(** * The handlers *)

Arguments server.http_Error : simpl never.

(** The outcomes of a service call, by its invariant: an error with a
    status other than 200 and a nil pointer, or no error, status 200
    and a pointer. *)
Lemma coherent_cases {T : Type} (res : services.Result T) :
  spec.coherent res ->
  (exists code msg, code ≠ 200 /\ res = (None, code, Some msg))
  \/ (exists v, res = (Some v, 200, None)).
Proof.
  destruct res as [[p code] err]. unfold spec.coherent. simpl.
  intros [H1 H2]. destruct err as [msg|].
  - left. exists code, msg. split.
    + intros Hc. apply H1 in Hc. done.
    + destruct p as [v|]; [| done].
      assert (Some msg = None) by (apply H2; eauto). done.
  - right. assert (is_Some p) as [v ->] by by apply H2.
    exists v. f_equal. f_equal. by apply H1.
Qed.

(** A handler that calls a service and goes on with [k]. *)
Lemma bind_call_1 {A B : Type} (svc : Call A) (k : A -> server.Handler B) :
  (server.call svc ≫= k).1 = (k svc.1).1.
Proof. reflexivity. Qed.

Lemma bind_call_2 {A B : Type} (svc : Call A) (k : A -> server.Handler B) :
  (server.call svc ≫= k).2 = svc.2 ++ (k svc.1).2.
Proof. reflexivity. Qed.

Lemma bind_call_value {A B : Type} (svc : Call A) (k : A -> server.Handler B) (a : A) :
  svc.1 = a -> (server.call svc ≫= k).1 = (k a).1.
Proof. by intros <-. Qed.

(** The upstream calls of such a handler are those of the service when
    what follows calls nothing. *)
Lemma bind_call_calls {A B : Type} (svc : Call A) (k : A -> server.Handler B) :
  (forall a, (k a).2 = []) -> (server.call svc ≫= k).2 = svc.2.
Proof. intros H. by rewrite bind_call_2, H, app_nil_r. Qed.

(** It returns when what follows returns on both outcomes of the
    service. *)
Lemma bind_call_returns {T B : Type}
    (svc : Call (services.Result T)) (k : services.Result T -> server.Handler B) :
  spec.coherent svc.1 ->
  (forall code msg, code ≠ 200 -> (k (None, code, Some msg)).1 ≠ server.Panicked) ->
  (forall v, (k (Some v, 200, None)).1 ≠ server.Panicked) ->
  (server.call svc ≫= k).1 ≠ server.Panicked.
Proof.
  intros Hco Herr Hok. rewrite bind_call_1.
  apply coherent_cases in Hco as [(code & msg & Hcode & ->)|(v & ->)]; auto.
Qed.

(** [http.Error] writes its response under a code from 100 to 999 and
    panics in [WriteHeader] on any other; it calls nothing. *)
Lemma http_Error_outcome (error : string) (code : Z) :
  server.http_Error error code
  = (if bool_decide (100 <= code <= 999)
     then server.Returned (server.Error error code)
     else server.InvalidCode code, []).
Proof.
  unfold server.http_Error.
  destruct (decide (100 <= code <= 999)) as [Hv|Hv].
  - rewrite (bool_decide_true _ Hv).
    rewrite (bool_decide_false (code < 100)), (bool_decide_false (code > 999)) by lia.
    reflexivity.
  - rewrite (bool_decide_false _ Hv).
    destruct (decide (code < 100)) as [Hl|Hl].
    + by rewrite (bool_decide_true _ Hl).
    + rewrite (bool_decide_false _ Hl), (bool_decide_true (code > 999)) by lia.
      reflexivity.
Qed.

Lemma http_Error_valid (error : string) (code : Z) :
  100 <= code <= 999 ->
  server.http_Error error code = (server.Returned (server.Error error code), []).
Proof. intros Hv. by rewrite http_Error_outcome, (bool_decide_true _ Hv). Qed.

Lemma http_Error_calls (error : string) (code : Z) :
  (server.http_Error error code).2 = [].
Proof. by rewrite http_Error_outcome. Qed.

Lemma http_Error_no_nil (error : string) (code : Z) :
  (server.http_Error error code).1 ≠ server.Panicked.
Proof. rewrite http_Error_outcome. simpl. by case_bool_decide. Qed.

Lemma http_Error_no_template (error : string) (code : Z) (name : string)
    (data : server.Data) :
  (server.http_Error error code).1 ≠ server.Returned (server.RenderTemplate name data).
Proof. rewrite http_Error_outcome. simpl. by case_bool_decide. Qed.

(** It forwards the status when what follows does on the error
    outcome. *)
Lemma bind_call_forwards {T : Type} (tells_404 : bool)
    (svc : Call (services.Result T))
    (k : services.Result T -> server.Handler server.Response) :
  spec.coherent svc.1 ->
  (forall code msg, code ≠ 200 -> 100 <= code <= 999 ->
     (k (None, code, Some msg)).1 =
       server.Returned
         (if tells_404 && bool_decide (code = 404)
          then server.Error "Digimon non trouvé" 404
          else server.Error (controllers.service_error code msg) code)) ->
  spec.forwards tells_404 svc (server.call svc ≫= k).
Proof.
  intros Hco Hk code Hc Hne Hv. rewrite bind_call_1.
  apply coherent_cases in Hco as [(code' & msg & Hcode & Hres)|(v & Hres)];
    rewrite Hres in *; simpl in Hc; subst code; [| done].
  exists msg. split; [done |]. by rewrite Hk.
Qed.

(** What follows the service call, in every handler: the error branch
    on a status other than 200. *)
Ltac error_branch :=
  let code := fresh "code" in
  let msg := fresh "msg" in
  let H := fresh "Hcode" in
  intros code msg H; simpl;
  rewrite (bool_decide_true (code ≠ http.StatusOK)) by exact H; simpl;
  unfold http.StatusNotFound;
  try (case_bool_decide; simpl);
  first [ done | apply http_Error_no_nil | apply http_Error_no_template ].

(** The same for a status that a response can carry. *)
Ltac valid_error_branch :=
  let code := fresh "code" in
  let msg := fresh "msg" in
  let H := fresh "Hcode" in
  let Hv := fresh "Hvalid" in
  intros code msg H Hv; simpl;
  rewrite (bool_decide_true (code ≠ http.StatusOK)) by exact H; simpl;
  unfold http.StatusNotFound;
  try (case_bool_decide; simpl);
  rewrite ?(http_Error_valid _ _ Hv); done.

Ltac no_more_calls :=
  intros [[[?|] ?] [?|]]; simpl; repeat (case_bool_decide; simpl);
  rewrite ?http_Error_calls; reflexivity.

Ltac coherence :=
  first [ apply GetAllDigimons_coherent | apply fetchDigimon_coherent
        | apply fetchAttribute_coherent | apply fetchLevel_coherent ].

Ltac returns := apply bind_call_returns; [coherence | error_branch | done].
Ltac forwards := apply bind_call_forwards; [coherence | valid_error_branch].

Section Handlers.
Variable env : services.Env.
Implicit Types (r : server.Request).

Lemma DisplayListDigimons_returns r :
  (controllers.DisplayListDigimons env r).1 ≠ server.Panicked.
Proof. unfold controllers.DisplayListDigimons. cbv zeta. returns. Qed.

Lemma DisplayListDigimonsWithPagination_returns r :
  (controllers.DisplayListDigimonsWithPagination env r).1 ≠ server.Panicked.
Proof. unfold controllers.DisplayListDigimonsWithPagination. cbv zeta. returns. Qed.

Lemma DisplaySearch_returns r :
  (controllers.DisplaySearch env r).1 ≠ server.Panicked.
Proof.
  unfold controllers.DisplaySearch. cbv zeta.
  case_bool_decide; [done | returns].
Qed.

Lemma DisplaySearchAdvanced_returns r :
  (controllers.DisplaySearchAdvanced env r).1 ≠ server.Panicked.
Proof.
  unfold controllers.DisplaySearchAdvanced. cbv zeta.
  case_bool_decide; [done | returns].
Qed.

Lemma DisplayFilter_returns r :
  (controllers.DisplayFilter env r).1 ≠ server.Panicked.
Proof.
  unfold controllers.DisplayFilter. cbv zeta.
  destruct (server.ParseForm r); [done |].
  change (server.Printf _ ≫= ?k) with (k tt). cbv beta. returns.
Qed.

Lemma DisplayFilterAdvanced_returns r :
  (controllers.DisplayFilterAdvanced env r).1 ≠ server.Panicked.
Proof.
  unfold controllers.DisplayFilterAdvanced. cbv zeta.
  destruct (server.ParseForm r); [done | returns].
Qed.

Lemma DisplayDigimonDetails_returns r :
  (controllers.DisplayDigimonDetails env r).1 ≠ server.Panicked.
Proof.
  unfold controllers.DisplayDigimonDetails. cbv zeta.
  case_bool_decide; [done |].
  destruct (strconv.Atoi _); [returns | done].
Qed.

Lemma DisplayDigimonDetailsByName_returns r :
  (controllers.DisplayDigimonDetailsByName env r).1 ≠ server.Panicked.
Proof.
  unfold controllers.DisplayDigimonDetailsByName. cbv zeta.
  case_bool_decide; [done | returns].
Qed.

Lemma DisplayDigimonsByAttribute_returns r :
  (controllers.DisplayDigimonsByAttribute env r).1 ≠ server.Panicked.
Proof.
  unfold controllers.DisplayDigimonsByAttribute. cbv zeta.
  case_bool_decide; [done | returns].
Qed.

Lemma DisplayDigimonsByLevel_returns r :
  (controllers.DisplayDigimonsByLevel env r).1 ≠ server.Panicked.
Proof.
  unfold controllers.DisplayDigimonsByLevel. cbv zeta.
  case_bool_decide; [done | returns].
Qed.

(** The upstream calls of each handler past its own checks: those of
    its one service call. *)
Lemma DisplayListDigimons_calls r :
  (controllers.DisplayListDigimons env r).2 =
    (services.GetAllDigimons env controllers.createContext
       (Some (services.Build_DigimonListOptions "" false "" None "" 0 100))).2.
Proof.
  unfold controllers.DisplayListDigimons. cbv zeta.
  apply bind_call_calls. no_more_calls.
Qed.

Lemma DisplayListDigimonsWithPagination_calls r :
  (controllers.DisplayListDigimonsWithPagination env r).2 =
    (services.GetAllDigimons env controllers.createContext
       (Some (services.Build_DigimonListOptions "" false "" None ""
                (controllers.requestedPage r) 20))).2.
Proof.
  unfold controllers.DisplayListDigimonsWithPagination. cbv zeta.
  apply bind_call_calls. no_more_calls.
Qed.

Lemma DisplaySearch_calls r :
  gostrings.TrimSpace (server.FormValue r "query") ≠ "" ->
  (controllers.DisplaySearch env r).2 =
    (services.GetAllDigimons env controllers.createContext
       (Some (services.Build_DigimonListOptions
                (gostrings.TrimSpace (server.FormValue r "query"))
                false "" None "" 0 50))).2.
Proof.
  intros Hq. unfold controllers.DisplaySearch. cbv zeta.
  rewrite bool_decide_false by exact Hq.
  apply bind_call_calls. no_more_calls.
Qed.

Lemma DisplaySearchAdvanced_calls r :
  gostrings.TrimSpace (server.FormValue r "query") ≠ "" ->
  (controllers.DisplaySearchAdvanced env r).2 =
    (services.GetAllDigimons env controllers.createContext
       (Some (services.Build_DigimonListOptions
                (gostrings.TrimSpace (server.FormValue r "query"))
                (bool_decide (server.FormValue r "exact" = "true")
                 || bool_decide (server.FormValue r "exact" = "on"))
                "" None "" 0 50))).2.
Proof.
  intros Hq. unfold controllers.DisplaySearchAdvanced. cbv zeta.
  rewrite bool_decide_false by exact Hq.
  apply bind_call_calls. no_more_calls.
Qed.

Lemma DisplayFilterAdvanced_calls r :
  server.ParseForm r = None ->
  (controllers.DisplayFilterAdvanced env r).2 =
    (services.GetAllDigimons env controllers.createContext
       (Some (services.Build_DigimonListOptions "" false "" None "" 0 500))).2.
Proof.
  intros Hp. unfold controllers.DisplayFilterAdvanced. cbv zeta. rewrite Hp.
  apply bind_call_calls. no_more_calls.
Qed.

Lemma DisplayDigimonDetails_calls r id :
  strconv.Atoi (url.Get (server.Query r) "id") = Some id ->
  (controllers.DisplayDigimonDetails env r).2 =
    (services.GetDigimonByID env controllers.createContext id).2.
Proof.
  intros Hid. unfold controllers.DisplayDigimonDetails. cbv zeta.
  case_bool_decide as Hempty; [by rewrite Hempty in Hid |].
  rewrite Hid. apply bind_call_calls. no_more_calls.
Qed.

(** The local pass of the advanced filter keeps everything or nothing. *)
Lemma validDigimons_all_or_nothing
    (levels attributes : list string) (x : string)
    (content : list services.DigimonSummary) :
  controllers.validDigimons levels attributes x content =
    if bool_decide (levels = [] /\ attributes = [] /\ x = "") then content else [].
Proof.
  unfold controllers.validDigimons.
  assert (Hfold : forall (c : bool) acc,
             fold_left (fun (acc : list services.DigimonSummary) d =>
                          if c then acc ++ [d] else acc) content acc
             = if c then acc ++ content else acc).
  { intros c. induction content as [|d l IH]; intros acc; simpl.
    - destruct c; [by rewrite app_nil_r | done].
    - rewrite IH. destruct c; [by rewrite <- app_assoc | done]. }
  rewrite Hfold. simpl.
  destruct (decide (levels = [] /\ attributes = [] /\ x = "")) as [(-> & -> & ->)|Hn].
  - by rewrite bool_decide_true.
  - rewrite (bool_decide_false _ Hn).
    destruct (_ && _) eqn:Hc; [| done].
    destruct Hn. rewrite !andb_true_iff, !bool_decide_eq_true in Hc.
    destruct Hc as [[H1 H2] H3].
    by rewrite (nil_length_inv _ H1), (nil_length_inv _ H2).
Qed.

End Handlers.

(* ================================================================= *)
(** * The specification of the services and the handlers *)

(** C9. Every service operation returns a nil error exactly with the
    status 200 and a non-nil pointer exactly with a nil error; and no
    handler panics on a nil dereference: its error branch calls
    [err.Error()] on a non-nil error, its success branch reads through
    a non-nil pointer. *)
Theorem service_results_coherent
    (env : services.Env) (ctx : context.Context) (id : Z) (name : string)
    (opts : option services.DigimonListOptions) (r : server.Request) :
  (spec.coherent (services.GetDigimonByID env ctx id).1
   /\ spec.coherent (services.GetDigimonByName env ctx name).1
   /\ spec.coherent (services.GetAllDigimons env ctx opts).1
   /\ spec.coherent (services.GetAttributeByID env ctx id).1
   /\ spec.coherent (services.GetAttributeByName env ctx name).1
   /\ spec.coherent (services.GetLevelByID env ctx id).1
   /\ spec.coherent (services.GetLevelByName env ctx name).1)
  /\ (controllers.DisplayListDigimons env r).1 ≠ server.Panicked
  /\ (controllers.DisplayListDigimonsWithPagination env r).1 ≠ server.Panicked
  /\ (controllers.DisplaySearch env r).1 ≠ server.Panicked
  /\ (controllers.DisplaySearchAdvanced env r).1 ≠ server.Panicked
  /\ (controllers.DisplayFilter env r).1 ≠ server.Panicked
  /\ (controllers.DisplayFilterAdvanced env r).1 ≠ server.Panicked
  /\ (controllers.DisplayDigimonDetails env r).1 ≠ server.Panicked
  /\ (controllers.DisplayDigimonDetailsByName env r).1 ≠ server.Panicked
  /\ (controllers.DisplayDigimonsByAttribute env r).1 ≠ server.Panicked
  /\ (controllers.DisplayDigimonsByLevel env r).1 ≠ server.Panicked.
Proof.
  split.
  { repeat apply conj;
      first [ apply fetchDigimon_coherent | apply GetAllDigimons_coherent
            | apply fetchAttribute_coherent | apply fetchLevel_coherent ]. }
  repeat apply conj.
  - apply DisplayListDigimons_returns.
  - apply DisplayListDigimonsWithPagination_returns.
  - apply DisplaySearch_returns.
  - apply DisplaySearchAdvanced_returns.
  - apply DisplayFilter_returns.
  - apply DisplayFilterAdvanced_returns.
  - apply DisplayDigimonDetails_returns.
  - apply DisplayDigimonDetailsByName_returns.
  - apply DisplayDigimonsByAttribute_returns.
  - apply DisplayDigimonsByLevel_returns.
Qed.

(** C5, as amended. Whenever the service a handler calls reports a
    status other than 200 that a response can carry, one from 100 to
    999, the handler answers with that status: the two lookups of a
    Digimon answer a 404 with "Digimon non trouvé", and every other
    case carries a message with the status code and the error text. *)
Theorem handlers_forward_status (env : services.Env) (r : server.Request) :
  let ctx := controllers.createContext in
  let query := gostrings.TrimSpace (server.FormValue r "query") in
  let exact := bool_decide (server.FormValue r "exact" = "true")
               || bool_decide (server.FormValue r "exact" = "on") in
  let name := url.Get (server.Query r) "name" in
  let attribute := url.Get (server.Query r) "attribute" in
  let level := url.Get (server.Query r) "level" in
  spec.forwards false
    (services.GetAllDigimons env ctx
       (Some (services.Build_DigimonListOptions "" false "" None "" 0 100)))
    (controllers.DisplayListDigimons env r)
  /\ spec.forwards false
       (services.GetAllDigimons env ctx
          (Some (services.Build_DigimonListOptions "" false "" None ""
                   (controllers.requestedPage r) 20)))
       (controllers.DisplayListDigimonsWithPagination env r)
  /\ (query ≠ "" ->
      spec.forwards false
        (services.GetAllDigimons env ctx
           (Some (services.Build_DigimonListOptions query false "" None "" 0 50)))
        (controllers.DisplaySearch env r))
  /\ (query ≠ "" ->
      spec.forwards false
        (services.GetAllDigimons env ctx
           (Some (services.Build_DigimonListOptions query exact "" None "" 0 50)))
        (controllers.DisplaySearchAdvanced env r))
  /\ (server.ParseForm r = None ->
      spec.forwards false
        (services.GetAllDigimons env ctx (Some (controllers.filterOptions r)))
        (controllers.DisplayFilter env r))
  /\ (server.ParseForm r = None ->
      spec.forwards false
        (services.GetAllDigimons env ctx
           (Some (services.Build_DigimonListOptions "" false "" None "" 0 500)))
        (controllers.DisplayFilterAdvanced env r))
  /\ (forall id, strconv.Atoi (url.Get (server.Query r) "id") = Some id ->
      spec.forwards true (services.GetDigimonByID env ctx id)
        (controllers.DisplayDigimonDetails env r))
  /\ (name ≠ "" ->
      spec.forwards true (services.GetDigimonByName env ctx name)
        (controllers.DisplayDigimonDetailsByName env r))
  /\ (attribute ≠ "" ->
      spec.forwards false (services.GetAttributeByName env ctx attribute)
        (controllers.DisplayDigimonsByAttribute env r))
  /\ (level ≠ "" ->
      spec.forwards false (services.GetLevelByName env ctx level)
        (controllers.DisplayDigimonsByLevel env r)).
Proof.
  intros ctx query exact name attribute level.
  repeat apply conj.
  - unfold controllers.DisplayListDigimons. cbv zeta. forwards.
  - unfold controllers.DisplayListDigimonsWithPagination. cbv zeta. forwards.
  - intros Hq. unfold controllers.DisplaySearch. cbv zeta.
    rewrite bool_decide_false by exact Hq. forwards.
  - intros Hq. unfold controllers.DisplaySearchAdvanced. cbv zeta.
    rewrite bool_decide_false by exact Hq. forwards.
  - intros Hp. unfold controllers.DisplayFilter. cbv zeta. rewrite Hp.
    change (server.Printf _ ≫= ?k) with (k tt). cbv beta. forwards.
  - intros Hp. unfold controllers.DisplayFilterAdvanced. cbv zeta. rewrite Hp.
    forwards.
  - intros id Hid. unfold controllers.DisplayDigimonDetails. cbv zeta.
    case_bool_decide as Hempty; [by rewrite Hempty in Hid |].
    rewrite Hid. forwards.
  - intros Hn. unfold controllers.DisplayDigimonDetailsByName. cbv zeta.
    rewrite bool_decide_false by exact Hn. forwards.
  - intros Hn. unfold controllers.DisplayDigimonsByAttribute. cbv zeta.
    rewrite bool_decide_false by exact Hn. forwards.
  - intros Hn. unfold controllers.DisplayDigimonsByLevel. cbv zeta.
    rewrite bool_decide_false by exact Hn. forwards.
Qed.

(** C5 as the specification words it does not hold: when upstream answers with the
    status line 099 the service reports the status 99, which is not
    200, and the handler does not respond with that status, nor with
    any: [http.Error] panics in [WriteHeader] on a status below 100. *)
Lemma handlers_forward_status_below_100 :
  (services.GetAllDigimons sample.odd controllers.createContext
     (Some (services.Build_DigimonListOptions "" false "" None "" 0 100))).1
  = (None, 99, Some "code HTTP inattendu: 99")
  /\ 99 ≠ 200
  /\ (controllers.DisplayListDigimons sample.odd sample.visit).1 = server.InvalidCode 99
  /\ forall w : server.Response,
       (controllers.DisplayListDigimons sample.odd sample.visit).1 ≠ server.Returned w.
Proof.
  split; [vm_compute; reflexivity |]. split; [done |].
  assert (H : (controllers.DisplayListDigimons sample.odd sample.visit).1
              = server.InvalidCode 99) by (vm_compute; reflexivity).
  split; [exact H |]. intros w. by rewrite H.
Qed.

(** The parameters of the listings the handlers ask for. *)
Lemma parameters_search (query : string) (exact : bool) :
  query ≠ "" ->
  spec.parameters (services.Build_DigimonListOptions query exact "" None "" 0 50)
  = spec.param exact "exact" "true" ++ [("name", query); ("pageSize", "50")].
Proof.
  intros Hq. unfold spec.parameters. simpl.
  rewrite (bool_decide_true (query ≠ "")) by exact Hq.
  destruct exact; vm_compute; reflexivity.
Qed.

Lemma parameters_page (page size : Z) :
  size > 0 ->
  spec.parameters (services.Build_DigimonListOptions "" false "" None "" page size)
  = spec.param (bool_decide (page > 0)) "page" (fmt.d page)
    ++ [("pageSize", fmt.d size)].
Proof.
  intros Hs. unfold spec.parameters. simpl.
  rewrite (bool_decide_true (size > 0)) by exact Hs.
  generalize (bool_decide (page > 0)) (fmt.d page) (fmt.d size).
  intros b sp ss. destruct b; vm_compute; reflexivity.
Qed.

(** C3. The search handler trims the [query] form value of its
    surrounding white space; an empty result is answered by a 303
    redirect to [/digimons] without any upstream call; otherwise the
    one upstream request carries exactly [name], the trimmed query, and
    [pageSize=50]. *)
Theorem DisplaySearch_trims_and_searches (env : services.Env) (r : server.Request) :
  let raw := server.FormValue r "query" in
  let query := gostrings.TrimSpace raw in
  spec.trimmed raw query
  /\ (query = "" ->
      controllers.DisplaySearch env r
      = (server.Returned (server.Redirect "/digimons" 303), []))
  /\ (query ≠ "" ->
      services.request_error env controllers.createContext "GET"
        "https://digi-api.com/api/v1/digimon" = None ->
      (controllers.DisplaySearch env r).2
      = [spec.listing controllers.createContext
           [("name", query); ("pageSize", "50")]]).
Proof.
  intros raw query. split; [apply TrimSpace_trimmed |]. split.
  - intros Hq. unfold controllers.DisplaySearch. cbv zeta.
    fold raw. fold query. by rewrite bool_decide_true.
  - intros Hq Hreq. rewrite DisplaySearch_calls by exact Hq.
    rewrite GetAllDigimons_calls, Hreq. fold raw. fold query.
    by rewrite parameters_search.
Qed.

(** C7. The paginated listing asks for page size 20 and for the page
    parsed from the [page] URL parameter, which falls back to 0 when
    the parameter is absent, not a number, or not positive; page 0
    sends no [page] parameter. The full listing asks for page size
    100. *)
Theorem listing_pages (env : services.Env) (r : server.Request) :
  let pageStr := url.Get (server.Query r) "page" in
  let page := controllers.requestedPage r in
  (server.Query r !! "page" = None -> page = 0)
  /\ (strconv.Atoi pageStr = None -> page = 0)
  /\ (forall p, strconv.Atoi pageStr = Some p -> p <= 0 -> page = 0)
  /\ (forall p, strconv.Atoi pageStr = Some p -> p > 0 -> page = p)
  /\ (services.request_error env controllers.createContext "GET"
        "https://digi-api.com/api/v1/digimon" = None ->
      (controllers.DisplayListDigimonsWithPagination env r).2
      = [spec.listing controllers.createContext
           (spec.param (bool_decide (page > 0)) "page" (fmt.d page)
            ++ [("pageSize", "20")])]
      /\ (controllers.DisplayListDigimons env r).2
         = [spec.listing controllers.createContext [("pageSize", "100")]]).
Proof.
  intros pageStr page. subst page. unfold controllers.requestedPage. fold pageStr.
  repeat apply conj.
  - intros Habs. subst pageStr. unfold url.Get. by rewrite Habs.
  - intros ->. by case_bool_decide.
  - intros p -> Hp. case_bool_decide; [| done].
    rewrite bool_decide_false; [done | lia].
  - intros p Hatoi Hp. rewrite Hatoi. case_bool_decide as Hs.
    + by rewrite bool_decide_true.
    + by rewrite Hs in Hatoi.
  - intros Hreq. split.
    + rewrite DisplayListDigimonsWithPagination_calls, GetAllDigimons_calls, Hreq.
      rewrite parameters_page by done. reflexivity.
    + rewrite DisplayListDigimons_calls, GetAllDigimons_calls, Hreq.
      rewrite parameters_page by done. reflexivity.
Qed.

(** C8. In the advanced search the options passed on have [Exact] true
    if and only if the raw [exact] form value is "true" or is "on"; the
    one upstream request carries [exact=true] in that case and no
    [exact] parameter in any other. *)
Theorem DisplaySearchAdvanced_exact (r : server.Request) :
  let query := gostrings.TrimSpace (server.FormValue r "query") in
  let raw := server.FormValue r "exact" in
  query ≠ "" ->
  exists opts : services.DigimonListOptions,
    (services.Exact opts = true <-> raw = "true" \/ raw = "on")
    /\ services.Name opts = query
    /\ services.PageSize opts = 50
    /\ forall env : services.Env,
         (controllers.DisplaySearchAdvanced env r).2
         = (services.GetAllDigimons env controllers.createContext (Some opts)).2
         /\ (services.request_error env controllers.createContext "GET"
               "https://digi-api.com/api/v1/digimon" = None ->
             (controllers.DisplaySearchAdvanced env r).2
             = [spec.listing controllers.createContext
                  (spec.param (services.Exact opts) "exact" "true"
                   ++ [("name", query); ("pageSize", "50")])]).
Proof.
  intros query raw Hq.
  exists (services.Build_DigimonListOptions query
            (bool_decide (raw = "true") || bool_decide (raw = "on"))
            "" None "" 0 50).
  simpl. split; [| split; [done | split; [done |]]].
  - by rewrite orb_true_iff, !bool_decide_eq_true.
  - intros env. split.
    + by apply DisplaySearchAdvanced_calls.
    + intros Hreq. rewrite DisplaySearchAdvanced_calls by exact Hq.
      rewrite GetAllDigimons_calls, Hreq. fold query. fold raw.
      by rewrite parameters_search.
Qed.

(** C2, as amended. An advanced-filter request whose form does not
    parse is answered 400 without a fetch. Otherwise the handler
    fetches with page size 500 and nothing else in the query, and when
    the fetch succeeds the filtered list is the whole fetched list if
    the form has no value under [levels], none under [attributes] and
    an [xantibody] whose first value is absent or empty, and is empty
    in every other case. *)
Theorem DisplayFilterAdvanced_local_pass (env : services.Env) (r : server.Request) :
  let levels := server.Form r !!! "levels" in
  let attributes := server.Form r !!! "attributes" in
  let xantibody := server.FormValue r "xantibody" in
  let fetch :=
    services.GetAllDigimons env controllers.createContext
      (Some (services.Build_DigimonListOptions "" false "" None "" 0 500)) in
  (server.ParseForm r ≠ None ->
   controllers.DisplayFilterAdvanced env r
   = (server.Returned (server.Error "Erreur parsing formulaire" 400), []))
  /\ (server.ParseForm r = None ->
      (controllers.DisplayFilterAdvanced env r).2 = fetch.2
      /\ (services.request_error env controllers.createContext "GET"
            "https://digi-api.com/api/v1/digimon" = None ->
          fetch.2 = [spec.listing controllers.createContext [("pageSize", "500")]])
      /\ forall data, fetch.1 = (Some data, 200, None) ->
           exists m : gmap string server.Value,
             (controllers.DisplayFilterAdvanced env r).1
             = server.Returned
                 (server.RenderTemplate "filter_digimons_advanced" (server.Map m))
             /\ m !! "Digimons"
                = Some (server.VSummaries
                          (if bool_decide (levels = [] /\ attributes = []
                                           /\ xantibody = "")
                           then services.Content data else []))).
Proof.
  intros levels attributes xantibody fetch. split.
  - intros Hp. unfold controllers.DisplayFilterAdvanced. cbv zeta.
    by destruct (server.ParseForm r).
  - intros Hp. split; [by apply DisplayFilterAdvanced_calls |]. split.
    + intros Hreq. subst fetch. rewrite GetAllDigimons_calls, Hreq.
      rewrite parameters_page by done. reflexivity.
    + intros data Hdata.
      unfold controllers.DisplayFilterAdvanced. cbv zeta. rewrite Hp.
      rewrite (bind_call_value _ _ _ Hdata). simpl.
      eexists. split; [reflexivity |].
      rewrite validDigimons_all_or_nothing. apply lookup_insert_eq.
Qed.

(** C2 as the specification words it does not hold: a form that supplies [xantibody]
    with an empty value gets the whole fetched list, which is not
    empty. *)
Lemma DisplayFilterAdvanced_blank_xantibody :
  spec.supplied sample.blank_xantibody "xantibody"
  /\ exists m : gmap string server.Value,
       (controllers.DisplayFilterAdvanced sample.up sample.blank_xantibody).1
       = server.Returned
           (server.RenderTemplate "filter_digimons_advanced" (server.Map m))
       /\ m !! "Digimons"
          = Some (server.VSummaries [sample.agumon; sample.gabumon])
       /\ m !! "Digimons" ≠ Some (server.VSummaries []).
Proof.
  split.
  - unfold spec.supplied. vm_compute. eauto.
  - eexists. split; [reflexivity |]. split; vm_compute; [reflexivity | discriminate].
Qed.

(** C4, as amended. A lookup by id whose [id] parameter is missing or
    does not parse as an integer is answered 400 without an upstream
    call; every [id] that parses, zero and negative ones included, goes
    on to the upstream fetch of that id. *)
Theorem DisplayDigimonDetails_id (env : services.Env) (r : server.Request) :
  let idStr := url.Get (server.Query r) "id" in
  (server.Query r !! "id" = None -> strconv.Atoi idStr = None)
  /\ (strconv.Atoi idStr = None ->
      exists msg, controllers.DisplayDigimonDetails env r
                  = (server.Returned (server.Error msg 400), []))
  /\ (forall id, strconv.Atoi idStr = Some id ->
      (controllers.DisplayDigimonDetails env r).2
      = (services.GetDigimonByID env controllers.createContext id).2
      /\ (services.request_error env controllers.createContext "GET"
            ("https://digi-api.com/api/v1/digimon/" +:+ fmt.d id) = None ->
          (controllers.DisplayDigimonDetails env r).2
          = [spec.lookup controllers.createContext ("/digimon/" +:+ fmt.d id)])).
Proof.
  intros idStr. repeat apply conj.
  - intros Habs. subst idStr. unfold url.Get. by rewrite Habs.
  - intros Hnone. unfold controllers.DisplayDigimonDetails. cbv zeta.
    fold idStr. case_bool_decide; [by eexists |].
    rewrite Hnone. by eexists.
  - intros id Hid. split; [by apply DisplayDigimonDetails_calls |].
    intros Hreq. rewrite (DisplayDigimonDetails_calls env r id Hid).
    unfold services.GetDigimonByID. cbv zeta. rewrite fetchDigimon_calls.
    change (services.digimonAPIBaseURL +:+ "/digimon/" +:+ fmt.d id)
      with ("https://digi-api.com/api/v1/digimon/" +:+ fmt.d id).
    by rewrite Hreq.
Qed.

(** C4 as the specification words it does not hold: the id -5 parses, is not positive,
    and is fetched upstream. *)
Lemma DisplayDigimonDetails_negative_id :
  strconv.Atoi (url.Get (server.Query sample.negative_id) "id") = Some (-5)
  /\ ¬ (-5 > 0)
  /\ (controllers.DisplayDigimonDetails sample.up sample.negative_id).2
     = [spec.lookup controllers.createContext "/digimon/-5"].
Proof. split; [| split]; [vm_compute; reflexivity | done | vm_compute; reflexivity]. Qed.

(* ================================================================= *)
(** * The theorems at sample inputs *)

Lemma GetAllDigimons_query_parameters_witness :
  (spec.listing context.Background (url.pairs (services.listQuery sample.options))
     ∈ (services.GetAllDigimons sample.up context.Background (Some sample.options)).2)
  /\ ("name", "agu") ∈ url.pairs (services.listQuery sample.options)
  /\ ("xAntibody", "false") ∈ url.pairs (services.listQuery sample.options)
  /\ "name" ∈ ["name"; "exact"; "attribute"; "xAntibody"; "level"; "page"; "pageSize"].
Proof.
  destruct (GetAllDigimons_query_parameters sample.up context.Background sample.options)
    as (Hreq & Hname & _ & _ & Hx & _ & _ & _ & Hall).
  split; [| split; [| split]].
  - apply Hreq. split; reflexivity.
  - apply Hname. split; [discriminate | reflexivity].
  - apply Hx. exists false. split; reflexivity.
  - apply (Hall "name" "agu"). apply Hname. split; [discriminate | reflexivity].
Defined.

Lemma fetch_contract_witness :
  spec.contract (services.decode_Digimon sample.missing) (http.Answered 404 "")
    (services.fetchDigimon sample.missing context.Background
       "https://digi-api.com/api/v1/digimon/0").1.
Proof.
  exact (proj1 (proj1 (fetch_contract sample.missing context.Background
                         "https://digi-api.com/api/v1/digimon/0" None))
           eq_refl).
Defined.

Lemma DisplaySearch_trims_and_searches_witness :
  controllers.DisplaySearch sample.up sample.blank_search
  = (server.Returned (server.Redirect "/digimons" 303), [])
  /\ (controllers.DisplaySearch sample.up sample.visit).2
     = [spec.listing controllers.createContext [("name", "agu"); ("pageSize", "50")]].
Proof.
  split.
  - apply (DisplaySearch_trims_and_searches sample.up sample.blank_search).
    vm_compute. reflexivity.
  - apply (DisplaySearch_trims_and_searches sample.up sample.visit).
    + vm_compute. discriminate.
    + reflexivity.
Defined.

Lemma listing_pages_witness :
  controllers.requestedPage sample.blank_search = 0
  /\ controllers.requestedPage (sample.request [("page", ["abc"])] []) = 0
  /\ controllers.requestedPage (sample.request [("page", ["-3"])] []) = 0
  /\ controllers.requestedPage sample.visit = 2
  /\ (controllers.DisplayListDigimonsWithPagination sample.up sample.visit).2
     = [spec.listing controllers.createContext [("page", "2"); ("pageSize", "20")]]
  /\ (controllers.DisplayListDigimons sample.up sample.visit).2
     = [spec.listing controllers.createContext [("pageSize", "100")]].
Proof.
  split; [| split; [| split; [| split]]].
  - apply (proj1 (listing_pages sample.up sample.blank_search)). reflexivity.
  - apply (proj1 (proj2 (listing_pages sample.up
                           (sample.request [("page", ["abc"])] [])))).
    reflexivity.
  - apply (proj1 (proj2 (proj2 (listing_pages sample.up
                                  (sample.request [("page", ["-3"])] []))))
             (-3)); [reflexivity | lia].
  - apply (proj1 (proj2 (proj2 (proj2 (listing_pages sample.up sample.visit)))) 2);
      [reflexivity | lia].
  - apply (proj2 (proj2 (proj2 (proj2 (listing_pages sample.up sample.visit))))).
    reflexivity.
Defined.

Lemma DisplaySearchAdvanced_exact_witness :
  exists opts : services.DigimonListOptions,
    (services.Exact opts = true <->
       server.FormValue sample.visit "exact" = "true"
       \/ server.FormValue sample.visit "exact" = "on")
    /\ services.Name opts = "agu"
    /\ services.PageSize opts = 50
    /\ forall env : services.Env,
         (controllers.DisplaySearchAdvanced env sample.visit).2
         = (services.GetAllDigimons env controllers.createContext (Some opts)).2
         /\ (services.request_error env controllers.createContext "GET"
               "https://digi-api.com/api/v1/digimon" = None ->
             (controllers.DisplaySearchAdvanced env sample.visit).2
             = [spec.listing controllers.createContext
                  (spec.param (services.Exact opts) "exact" "true"
                   ++ [("name", "agu"); ("pageSize", "50")])]).
Proof.
  apply (DisplaySearchAdvanced_exact sample.visit). vm_compute. discriminate.
Defined.

Lemma handlers_forward_status_witness :
  (controllers.DisplayDigimonDetails sample.missing sample.visit).1
  = server.Returned (server.Error "Digimon non trouvé" 404)
  /\ spec.forwards false
       (services.GetAllDigimons sample.down controllers.createContext
          (Some (services.Build_DigimonListOptions "agu" false "" None "" 0 50)))
       (controllers.DisplaySearch sample.down sample.visit)
  /\ spec.forwards false
       (services.GetAllDigimons sample.missing controllers.createContext
          (Some (services.Build_DigimonListOptions "agu" true "" None "" 0 50)))
       (controllers.DisplaySearchAdvanced sample.missing sample.visit)
  /\ spec.forwards false
       (services.GetAllDigimons sample.garbled controllers.createContext
          (Some (controllers.filterOptions sample.visit)))
       (controllers.DisplayFilter sample.garbled sample.visit)
  /\ spec.forwards false
       (services.GetAllDigimons sample.missing controllers.createContext
          (Some (services.Build_DigimonListOptions "" false "" None "" 0 500)))
       (controllers.DisplayFilterAdvanced sample.missing sample.visit)
  /\ spec.forwards true
       (services.GetDigimonByName sample.missing controllers.createContext "Agumon")
       (controllers.DisplayDigimonDetailsByName sample.missing sample.visit)
  /\ spec.forwards false
       (services.GetAttributeByName sample.missing controllers.createContext "Vaccine")
       (controllers.DisplayDigimonsByAttribute sample.missing sample.visit)
  /\ spec.forwards false
       (services.GetLevelByName sample.missing controllers.createContext "Rookie")
       (controllers.DisplayDigimonsByLevel sample.missing sample.visit).
Proof.
  destruct (handlers_forward_status sample.missing sample.visit)
    as (_ & _ & _ & Hadv & _ & Hfadv & Hid & Hname & Hattr & Hlevel).
  destruct (handlers_forward_status sample.down sample.visit)
    as (_ & _ & Hsearch & _).
  destruct (handlers_forward_status sample.garbled sample.visit)
    as (_ & _ & _ & _ & Hfilter & _).
  repeat apply conj.
  - destruct (Hid 289 eq_refl 404 eq_refl) as (msg & _ & Hres); [lia | lia | exact Hres].
  - apply Hsearch. vm_compute. discriminate.
  - apply Hadv. vm_compute. discriminate.
  - apply Hfilter. reflexivity.
  - apply Hfadv. reflexivity.
  - apply Hname. vm_compute. discriminate.
  - apply Hattr. vm_compute. discriminate.
  - apply Hlevel. vm_compute. discriminate.
Defined.

Lemma DisplayFilterAdvanced_local_pass_witness :
  (controllers.DisplayFilterAdvanced sample.up sample.rookies).2
  = [spec.listing controllers.createContext [("pageSize", "500")]]
  /\ (exists m : gmap string server.Value,
        (controllers.DisplayFilterAdvanced sample.up sample.rookies).1
        = server.Returned
            (server.RenderTemplate "filter_digimons_advanced" (server.Map m))
        /\ m !! "Digimons" = Some (server.VSummaries []))
  /\ (exists m : gmap string server.Value,
        (controllers.DisplayFilterAdvanced sample.up sample.blank_search).1
        = server.Returned
            (server.RenderTemplate "filter_digimons_advanced" (server.Map m))
        /\ m !! "Digimons"
           = Some (server.VSummaries [sample.agumon; sample.gabumon])).
Proof.
  destruct (proj2 (DisplayFilterAdvanced_local_pass sample.up sample.rookies) eq_refl)
    as (Hcalls & Hfetch & Hdata).
  destruct (proj2 (DisplayFilterAdvanced_local_pass sample.up sample.blank_search) eq_refl)
    as (_ & _ & Hall).
  split; [| split].
  - rewrite Hcalls. apply Hfetch. reflexivity.
  - exact (Hdata sample.page eq_refl).
  - exact (Hall sample.page eq_refl).
Defined.

Lemma DisplayDigimonDetails_id_witness :
  (exists msg, controllers.DisplayDigimonDetails sample.up sample.blank_search
               = (server.Returned (server.Error msg 400), []))
  /\ (exists msg, controllers.DisplayDigimonDetails sample.up
                    (sample.request [("id", ["abc"])] [])
                  = (server.Returned (server.Error msg 400), []))
  /\ (controllers.DisplayDigimonDetails sample.up sample.visit).2
     = [spec.lookup controllers.createContext "/digimon/289"]
  /\ (controllers.DisplayDigimonDetails sample.up sample.negative_id).2
     = [spec.lookup controllers.createContext "/digimon/-5"].
Proof.
  split; [| split; [| split]].
  - apply (proj1 (proj2 (DisplayDigimonDetails_id sample.up sample.blank_search))).
    apply (proj1 (DisplayDigimonDetails_id sample.up sample.blank_search)).
    reflexivity.
  - apply (proj1 (proj2 (DisplayDigimonDetails_id sample.up
                           (sample.request [("id", ["abc"])] [])))).
    reflexivity.
  - apply (proj2 (proj2 (DisplayDigimonDetails_id sample.up sample.visit)) 289);
      reflexivity.
  - apply (proj2 (proj2 (DisplayDigimonDetails_id sample.up sample.negative_id)) (-5));
      reflexivity.
Defined.

(* ================================================================= *)
(** * More about the transport client *)

(** X1. Nil options and zero-value options are the same listing: the
    same request, the same results. *)
Theorem GetAllDigimons_nil_options (env : services.Env) (ctx : context.Context) :
  services.GetAllDigimons env ctx None
  = services.GetAllDigimons env ctx (Some services.zeroOptions).
Proof.
  unfold services.GetAllDigimons, services.NewRequestWithContext.
  destruct (services.request_error env _ _ _); reflexivity.
Qed.

Lemma parameters_names (opts : services.DigimonListOptions) :
  map fst (spec.parameters opts) `sublist_of` spec.names.
Proof.
  unfold spec.parameters, spec.names.
  destruct (bool_decide (services.Attribute_ opts ≠ "")), (services.Exact opts),
    (bool_decide (services.Level_ opts ≠ "")), (bool_decide (services.Name opts ≠ "")),
    (bool_decide (services.Page opts > 0)), (bool_decide (services.PageSize opts > 0)),
    (services.XAntibody opts) as [b|]; simpl;
    repeat first [apply sublist_nil | apply sublist_skip | apply sublist_cons].
Qed.

(** X2. The parameter names of a listing come in the order of their
    names and none comes twice: they are a sublist of the seven names
    in order. *)
Theorem listing_names_in_order (opts : services.DigimonListOptions) :
  map fst (url.pairs (services.listQuery opts)) `sublist_of` spec.names.
Proof. rewrite pairs_listQuery. apply parameters_names. Qed.

Section Occurrences.
Implicit Types (c d : ascii) (s t : string).

Lemma occurrences_app c s t :
  spec.occurrences c (s +:+ t) = (spec.occurrences c s + spec.occurrences c t)%nat.
Proof.
  induction s as [|d s IH]; [done |].
  rewrite string_app_cons. simpl. rewrite IH. lia.
Qed.

(** An escaped byte holds neither [&] nor [=]. *)
Lemma escape_byte_separators d :
  spec.occurrences "&" (url.escape_byte d) = 0%nat
  /\ spec.occurrences "=" (url.escape_byte d) = 0%nat.
Proof. destruct d as [[] [] [] [] [] [] [] []]; split; vm_compute; reflexivity. Qed.

Lemma QueryEscape_separators s :
  spec.occurrences "&" (url.QueryEscape s) = 0%nat
  /\ spec.occurrences "=" (url.QueryEscape s) = 0%nat.
Proof.
  induction s as [|d s [IH1 IH2]]; [done |]. simpl.
  rewrite !occurrences_app, IH1, IH2.
  by destruct (escape_byte_separators d) as [-> ->].
Qed.

Lemma occurrences_concat c sep (l : list string) :
  spec.occurrences c (String.concat sep l)
  = (sum_list (map (spec.occurrences c) l)
     + Nat.pred (length l) * spec.occurrences c sep)%nat.
Proof.
  induction l as [|p l IH]; [done |].
  destruct l as [|q l]; [simpl; lia |].
  change (String.concat sep (p :: q :: l))
    with (p +:+ sep +:+ String.concat sep (q :: l)).
  rewrite !occurrences_app, IH. simpl. lia.
Qed.

(** In an encoded query every [=] sits between a key and its value and
    every [&] between two pairs. *)
Lemma encode_separators (l : list (string * string)) :
  spec.occurrences "=" (url.encode l) = length l
  /\ spec.occurrences "&" (url.encode l) = Nat.pred (length l).
Proof.
  unfold url.encode. rewrite !occurrences_concat, length_map.
  assert (H : sum_list (map (spec.occurrences "=")
                 (map (fun kv : string * string =>
                         url.QueryEscape kv.1 +:+ "=" +:+ url.QueryEscape kv.2) l))
              = length l
              /\ sum_list (map (spec.occurrences "&")
                   (map (fun kv : string * string =>
                           url.QueryEscape kv.1 +:+ "=" +:+ url.QueryEscape kv.2) l))
                 = 0%nat).
  { induction l as [|[k v] l [IHe IHa]]; [done |].
    destruct (QueryEscape_separators k) as [Hka Hke].
    destruct (QueryEscape_separators v) as [Hva Hve].
    simpl. rewrite !occurrences_app, IHe, IHa, Hka, Hke, Hva, Hve. done. }
  destruct H as [-> ->]. simpl. split; lia.
Qed.
End Occurrences.

(** X3. Whatever the option values, the raw query of a listing has one
    [=] per parameter and one [&] between two parameters: a name, an
    attribute or a level cannot bring a parameter of its own. *)
Theorem listing_query_separators
    (env : services.Env) (ctx : context.Context) (opts : services.DigimonListOptions)
    (req : http.Request) :
  req ∈ (services.GetAllDigimons env ctx (Some opts)).2 ->
  let sent := url.pairs (services.listQuery opts) in
  spec.occurrences "=" (http.RawQuery req) = length sent
  /\ spec.occurrences "&" (http.RawQuery req) = Nat.pred (length sent)
  /\ (length sent <= 7)%nat.
Proof.
  intros Hreq sent. rewrite GetAllDigimons_calls in Hreq.
  destruct (services.request_error env _ _ _); [by apply elem_of_nil in Hreq |].
  apply list_elem_of_singleton in Hreq as ->. simpl.
  subst sent. rewrite pairs_listQuery.
  destruct (encode_separators (spec.parameters opts)) as [He Ha].
  split; [exact He | split; [exact Ha |]].
  pose proof (parameters_names opts) as Hsub. apply sublist_length in Hsub.
  by rewrite length_map in Hsub.
Qed.

Section MoreServices.
Variable env : services.Env.
Implicit Types (ctx : context.Context) (url name : string) (id : Z).

Lemma fetchAttribute_calls ctx url :
  (services.fetchAttribute env ctx url).2 =
    match services.request_error env ctx "GET" url with
    | Some _ => []
    | None => [spec.outbound ctx url ""]
    end.
Proof.
  unfold services.fetchAttribute, services.NewRequestWithContext.
  change http.MethodGet with "GET".
  fetch_cases; reflexivity.
Qed.

Lemma fetchLevel_calls ctx url :
  (services.fetchLevel env ctx url).2 =
    match services.request_error env ctx "GET" url with
    | Some _ => []
    | None => [spec.outbound ctx url ""]
    end.
Proof.
  unfold services.fetchLevel, services.NewRequestWithContext.
  change http.MethodGet with "GET".
  fetch_cases; reflexivity.
Qed.

(** A fetch whose request cannot be created returns the error and does
    not call the client. *)
Lemma fetchDigimon_uncreated ctx url err :
  services.request_error env ctx "GET" url = Some err ->
  spec.uncreated err (services.fetchDigimon env ctx url).
Proof.
  intros H. unfold spec.uncreated, services.fetchDigimon, services.NewRequestWithContext.
  change http.MethodGet with "GET". by rewrite H.
Qed.

Lemma fetchAttribute_uncreated ctx url err :
  services.request_error env ctx "GET" url = Some err ->
  spec.uncreated err (services.fetchAttribute env ctx url).
Proof.
  intros H. unfold spec.uncreated, services.fetchAttribute, services.NewRequestWithContext.
  change http.MethodGet with "GET". by rewrite H.
Qed.

Lemma fetchLevel_uncreated ctx url err :
  services.request_error env ctx "GET" url = Some err ->
  spec.uncreated err (services.fetchLevel env ctx url).
Proof.
  intros H. unfold spec.uncreated, services.fetchLevel, services.NewRequestWithContext.
  change http.MethodGet with "GET". by rewrite H.
Qed.

Lemma GetAllDigimons_uncreated ctx opts err :
  services.request_error env ctx "GET" "https://digi-api.com/api/v1/digimon" = Some err ->
  spec.uncreated err (services.GetAllDigimons env ctx opts).
Proof.
  intros H. unfold spec.uncreated, services.GetAllDigimons, services.NewRequestWithContext.
  change (services.digimonAPIBaseURL +:+ "/digimon")
    with "https://digi-api.com/api/v1/digimon".
  change http.MethodGet with "GET". by rewrite H.
Qed.

(** What a fetch hands to the client. *)
Lemma handed_outbound ctx url (l : list http.Request) :
  l = match services.request_error env ctx "GET" url with
      | Some _ => []
      | None => [spec.outbound ctx url ""]
      end ->
  spec.handed env ctx url l.
Proof.
  intros ->. unfold spec.handed.
  destruct (services.request_error env ctx "GET" url); [done |].
  eexists. split; [reflexivity |]. done.
Qed.

(** A fetch that called the client with [req] has the results the
    contract gives for what the client returned to that call. *)
Lemma fetchDigimon_answer ctx url req :
  (services.fetchDigimon env ctx url).2 = [req] ->
  spec.contract (services.decode_Digimon env)
    (services.round_trip env services.httpClient req)
    (services.fetchDigimon env ctx url).1.
Proof.
  intros Hsent. rewrite fetchDigimon_calls in Hsent.
  destruct (services.request_error env ctx "GET" url) eqn:Hreq; [done |].
  injection Hsent as <-.
  by apply (proj1 (fetchDigimon_honours env ctx url)).
Qed.

Lemma fetchAttribute_answer ctx url req :
  (services.fetchAttribute env ctx url).2 = [req] ->
  spec.contract (services.decode_Attribute env)
    (services.round_trip env services.httpClient req)
    (services.fetchAttribute env ctx url).1.
Proof.
  intros Hsent. rewrite fetchAttribute_calls in Hsent.
  destruct (services.request_error env ctx "GET" url) eqn:Hreq; [done |].
  injection Hsent as <-.
  by apply (proj1 (fetchAttribute_honours env ctx url)).
Qed.

Lemma fetchLevel_answer ctx url req :
  (services.fetchLevel env ctx url).2 = [req] ->
  spec.contract (services.decode_Level env)
    (services.round_trip env services.httpClient req)
    (services.fetchLevel env ctx url).1.
Proof.
  intros Hsent. rewrite fetchLevel_calls in Hsent.
  destruct (services.request_error env ctx "GET" url) eqn:Hreq; [done |].
  injection Hsent as <-.
  by apply (proj1 (fetchLevel_honours env ctx url)).
Qed.

Lemma GetAllDigimons_answer ctx opts req :
  (services.GetAllDigimons env ctx (Some opts)).2 = [req] ->
  spec.contract (services.decode_DigimonListResponse env)
    (services.round_trip env services.httpClient req)
    (services.GetAllDigimons env ctx (Some opts)).1.
Proof.
  intros Hsent. rewrite GetAllDigimons_calls in Hsent.
  destruct (services.request_error env ctx "GET" _) eqn:Hreq; [done |].
  injection Hsent as <-.
  pose proof (proj1 (GetAllDigimons_honours env ctx (Some opts))) as Hc.
  unfold url.Encode in Hc. rewrite pairs_listQuery in Hc. by apply Hc.
Qed.

End MoreServices.

(** The results of the contract, for each way the call of the client
    can end short of a result. *)
Lemma contract_failed {T : Type} (decode : string -> string + T)
    (err : string) (res : services.Result T) :
  spec.contract decode (http.Failed err) res ->
  res = (None, 500, Some ("erreur requête HTTP: " +:+ err)).
Proof. by inversion 1. Qed.

Lemma contract_status {T : Type} (decode : string -> string + T)
    (code : Z) (body : string) (res : services.Result T) :
  spec.contract decode (http.Answered code body) res ->
  code ≠ 200 ->
  res = (None, code, Some ("code HTTP inattendu: " +:+ fmt.d code)).
Proof. by inversion 1. Qed.

Lemma contract_undecodable {T : Type} (decode : string -> string + T)
    (body err : string) (res : services.Result T) :
  spec.contract decode (http.Answered 200 body) res ->
  decode body = inl err ->
  res = (None, 500, Some ("erreur décodage JSON: " +:+ err)).
Proof.
  inversion 1 as [ | | body' err' Hdec | body' v Hdec ]; subst; intros Herr.
  - done.
  - rewrite Hdec in Herr. by injection Herr as ->.
  - by rewrite Hdec in Herr.
Qed.

(** X4. Each lookup calls the client at most once, whatever the client
    returns: once when its request can be created, with a GET bound to
    the caller's context and created from the URL text made of the
    base, the path and the id in decimal or the name as it came; and
    not at all when the request cannot be created. *)
Theorem lookups_send_once
    (env : services.Env) (ctx : context.Context) (id : Z) (name : string) :
  spec.handed env ctx ("https://digi-api.com/api/v1/digimon/" +:+ fmt.d id)
    (services.GetDigimonByID env ctx id).2
  /\ spec.handed env ctx ("https://digi-api.com/api/v1/digimon/" +:+ name)
       (services.GetDigimonByName env ctx name).2
  /\ spec.handed env ctx ("https://digi-api.com/api/v1/attribute/" +:+ fmt.d id)
       (services.GetAttributeByID env ctx id).2
  /\ spec.handed env ctx ("https://digi-api.com/api/v1/attribute/" +:+ name)
       (services.GetAttributeByName env ctx name).2
  /\ spec.handed env ctx ("https://digi-api.com/api/v1/level/" +:+ fmt.d id)
       (services.GetLevelByID env ctx id).2
  /\ spec.handed env ctx ("https://digi-api.com/api/v1/level/" +:+ name)
       (services.GetLevelByName env ctx name).2.
Proof.
  repeat apply conj; apply handed_outbound.
  - apply fetchDigimon_calls.
  - apply fetchDigimon_calls.
  - apply fetchAttribute_calls.
  - apply fetchAttribute_calls.
  - apply fetchLevel_calls.
  - apply fetchLevel_calls.
Qed.

(** X5. A service whose request cannot be created from its own URL
    text returns a nil result, the status 500 and an error that carries
    the cause, and does not call the client. *)
Theorem request_not_created
    (env : services.Env) (ctx : context.Context) (id : Z) (name : string)
    (opts : option services.DigimonListOptions) (err : string) :
  let refused url := services.request_error env ctx "GET" url = Some err in
  (refused ("https://digi-api.com/api/v1/digimon/" +:+ fmt.d id) ->
   spec.uncreated err (services.GetDigimonByID env ctx id))
  /\ (refused ("https://digi-api.com/api/v1/digimon/" +:+ name) ->
      spec.uncreated err (services.GetDigimonByName env ctx name))
  /\ (refused "https://digi-api.com/api/v1/digimon" ->
      spec.uncreated err (services.GetAllDigimons env ctx opts))
  /\ (refused ("https://digi-api.com/api/v1/attribute/" +:+ fmt.d id) ->
      spec.uncreated err (services.GetAttributeByID env ctx id))
  /\ (refused ("https://digi-api.com/api/v1/attribute/" +:+ name) ->
      spec.uncreated err (services.GetAttributeByName env ctx name))
  /\ (refused ("https://digi-api.com/api/v1/level/" +:+ fmt.d id) ->
      spec.uncreated err (services.GetLevelByID env ctx id))
  /\ (refused ("https://digi-api.com/api/v1/level/" +:+ name) ->
      spec.uncreated err (services.GetLevelByName env ctx name)).
Proof.
  intros refused. subst refused. cbv beta.
  repeat apply conj; intros H.
  - by apply fetchDigimon_uncreated.
  - by apply fetchDigimon_uncreated.
  - by apply GetAllDigimons_uncreated.
  - by apply fetchAttribute_uncreated.
  - by apply fetchAttribute_uncreated.
  - by apply fetchLevel_uncreated.
  - by apply fetchLevel_uncreated.
Qed.

(* ================================================================= *)
(** * The handlers from end to end *)

Lemma Get_missing (v : url.Values) (key : string) :
  v !! key = None -> url.Get v key = "".
Proof. intros H. unfold url.Get. by rewrite H. Qed.

Section MoreHandlers.
Variable env : services.Env.
Implicit Types (r : server.Request).

Lemma DisplayFilter_calls r :
  server.ParseForm r = None ->
  (controllers.DisplayFilter env r).2 =
    (services.GetAllDigimons env controllers.createContext
       (Some (controllers.filterOptions r))).2.
Proof.
  intros Hp. unfold controllers.DisplayFilter. cbv zeta. rewrite Hp.
  change (server.Printf _ ≫= ?k) with (k tt). cbv beta.
  apply bind_call_calls. no_more_calls.
Qed.

Lemma DisplayDigimonDetailsByName_calls r :
  url.Get (server.Query r) "name" ≠ "" ->
  (controllers.DisplayDigimonDetailsByName env r).2 =
    (services.GetDigimonByName env controllers.createContext
       (url.Get (server.Query r) "name")).2.
Proof.
  intros Hn. unfold controllers.DisplayDigimonDetailsByName. cbv zeta.
  rewrite (bool_decide_false _ Hn). apply bind_call_calls. no_more_calls.
Qed.

Lemma DisplayDigimonsByAttribute_calls r :
  url.Get (server.Query r) "attribute" ≠ "" ->
  (controllers.DisplayDigimonsByAttribute env r).2 =
    (services.GetAttributeByName env controllers.createContext
       (url.Get (server.Query r) "attribute")).2.
Proof.
  intros Hn. unfold controllers.DisplayDigimonsByAttribute. cbv zeta.
  rewrite (bool_decide_false _ Hn). apply bind_call_calls. no_more_calls.
Qed.

Lemma DisplayDigimonsByLevel_calls r :
  url.Get (server.Query r) "level" ≠ "" ->
  (controllers.DisplayDigimonsByLevel env r).2 =
    (services.GetLevelByName env controllers.createContext
       (url.Get (server.Query r) "level")).2.
Proof.
  intros Hn. unfold controllers.DisplayDigimonsByLevel. cbv zeta.
  rewrite (bool_decide_false _ Hn). apply bind_call_calls. no_more_calls.
Qed.

End MoreHandlers.


(** What follows a service call that could not create its request. *)
Lemma bind_call_uncreated {T B : Type} (err : string)
    (svc : Call (services.Result T)) (k : services.Result T -> server.Handler B) :
  spec.uncreated err svc ->
  server.call svc ≫= k = k (None, 500, Some ("erreur création requête: " +:+ err)).
Proof.
  intros ->. unfold server.call, mbind, server.Handler_bind. simpl.
  by destruct (k _).
Qed.

(** A handler past its checks is its service call followed by what the
    handler does with the results. *)
Ltac past_checks Hh :=
  destruct Hh as [ | | Hq | Hq | Hp | Hp | id Hid | Hn | Hn | Hn ];
  [ unfold controllers.DisplayListDigimons
  | unfold controllers.DisplayListDigimonsWithPagination
  | unfold controllers.DisplaySearch; rewrite (bool_decide_false _ Hq)
  | unfold controllers.DisplaySearchAdvanced; rewrite (bool_decide_false _ Hq)
  | unfold controllers.DisplayFilter; rewrite Hp;
    change (server.Printf _ ≫= ?k) with (k tt); cbv beta
  | unfold controllers.DisplayFilterAdvanced; rewrite Hp
  | unfold controllers.DisplayDigimonDetails;
    rewrite bool_decide_false by (by intros Hempty; rewrite Hempty in Hid);
    rewrite Hid
  | unfold controllers.DisplayDigimonDetailsByName; rewrite (bool_decide_false _ Hn)
  | unfold controllers.DisplayDigimonsByAttribute; rewrite (bool_decide_false _ Hn)
  | unfold controllers.DisplayDigimonsByLevel; rewrite (bool_decide_false _ Hn) ];
  cbv zeta.

(** The same for a handler that handed a request to the client: its
    service call has the results of the contract for what the client
    returned to that call. *)
Ltac asked Hh Hsent :=
  revert Hsent;
  destruct Hh as [ | | Hq | Hq | Hp | Hp | id Hid | Hn | Hn | Hn ];
  intros Hsent;
  [ rewrite DisplayListDigimons_calls in Hsent;
    unfold controllers.DisplayListDigimons
  | rewrite DisplayListDigimonsWithPagination_calls in Hsent;
    unfold controllers.DisplayListDigimonsWithPagination
  | rewrite (DisplaySearch_calls _ _ Hq) in Hsent;
    unfold controllers.DisplaySearch; rewrite (bool_decide_false _ Hq)
  | rewrite (DisplaySearchAdvanced_calls _ _ Hq) in Hsent;
    unfold controllers.DisplaySearchAdvanced; rewrite (bool_decide_false _ Hq)
  | rewrite (DisplayFilter_calls _ _ Hp) in Hsent;
    unfold controllers.DisplayFilter; rewrite Hp;
    change (server.Printf _ ≫= ?k) with (k tt); cbv beta
  | rewrite (DisplayFilterAdvanced_calls _ _ Hp) in Hsent;
    unfold controllers.DisplayFilterAdvanced; rewrite Hp
  | rewrite (DisplayDigimonDetails_calls _ _ id Hid) in Hsent;
    unfold controllers.DisplayDigimonDetails;
    rewrite bool_decide_false by (by intros Hempty; rewrite Hempty in Hid);
    rewrite Hid
  | rewrite (DisplayDigimonDetailsByName_calls _ _ Hn) in Hsent;
    unfold controllers.DisplayDigimonDetailsByName; rewrite (bool_decide_false _ Hn)
  | rewrite (DisplayDigimonsByAttribute_calls _ _ Hn) in Hsent;
    unfold controllers.DisplayDigimonsByAttribute; rewrite (bool_decide_false _ Hn)
  | rewrite (DisplayDigimonsByLevel_calls _ _ Hn) in Hsent;
    unfold controllers.DisplayDigimonsByLevel; rewrite (bool_decide_false _ Hn) ];
  unfold services.GetDigimonByID, services.GetDigimonByName,
    services.GetAttributeByName, services.GetLevelByName in Hsent |- *;
  cbv zeta in Hsent |- *;
  first [ apply GetAllDigimons_answer in Hsent
        | apply fetchDigimon_answer in Hsent
        | apply fetchAttribute_answer in Hsent
        | apply fetchLevel_answer in Hsent ].





(* ================================================================= *)
(** * The handlers, whatever the request *)

(** X10. A request that fails a handler's own check is answered 400
    and nothing is sent upstream: a form that does not parse in the
    filter, a [name], [attribute] or [level] URL parameter that is
    absent or empty in the lookups by name, attribute and level. *)
Theorem rejected_without_upstream_call (env : services.Env) (r : server.Request) :
  (forall key, server.Query r !! key = None -> url.Get (server.Query r) key = "")
  /\ (server.ParseForm r ≠ None ->
      controllers.DisplayFilter env r
      = (server.Returned (server.Error "Erreur parsing formulaire" 400), []))
  /\ (url.Get (server.Query r) "name" = "" ->
      controllers.DisplayDigimonDetailsByName env r
      = (server.Returned (server.Error "Nom manquant" 400), []))
  /\ (url.Get (server.Query r) "attribute" = "" ->
      controllers.DisplayDigimonsByAttribute env r
      = (server.Returned (server.Error "Attribut manquant" 400), []))
  /\ (url.Get (server.Query r) "level" = "" ->
      controllers.DisplayDigimonsByLevel env r
      = (server.Returned (server.Error "Niveau manquant" 400), [])).
Proof.
  repeat apply conj.
  - intros key. apply Get_missing.
  - intros Hp. unfold controllers.DisplayFilter. cbv zeta.
    by destruct (server.ParseForm r).
  - intros Hn. unfold controllers.DisplayDigimonDetailsByName. cbv zeta.
    by rewrite Hn.
  - intros Hn. unfold controllers.DisplayDigimonsByAttribute. cbv zeta.
    by rewrite Hn.
  - intros Hn. unfold controllers.DisplayDigimonsByLevel. cbv zeta.
    by rewrite Hn.
Qed.

(** The parameters of the listing the filter asks for. *)
Lemma parameters_filter (attribute level : string) (x : bool) :
  spec.parameters
    (services.Build_DigimonListOptions "" false attribute
       (if x then Some true else None) level 0 100)
  = spec.param (bool_decide (attribute ≠ "")) "attribute" attribute
    ++ spec.param (bool_decide (level ≠ "")) "level" level
    ++ [("pageSize", "100")]
    ++ spec.param x "xAntibody" "true".
Proof.
  unfold spec.parameters. simpl.
  destruct (bool_decide (attribute ≠ "")), (bool_decide (level ≠ "")), x;
    vm_compute; reflexivity.
Qed.

(** X11. The filter sends the trimmed [level] and [attribute] when
    they are not empty, [xAntibody=true] when the [xantibody] form
    value is "true" or "on", and [pageSize=100]; it never sends
    [xAntibody=false], a name or a page. *)
Theorem DisplayFilter_query (env : services.Env) (r : server.Request) :
  let level := gostrings.TrimSpace (server.FormValue r "level") in
  let attribute := gostrings.TrimSpace (server.FormValue r "attribute") in
  let xantibody := server.FormValue r "xantibody" in
  let sent :=
    spec.param (bool_decide (attribute ≠ "")) "attribute" attribute
    ++ spec.param (bool_decide (level ≠ "")) "level" level
    ++ [("pageSize", "100")]
    ++ spec.param (bool_decide (xantibody = "true" \/ xantibody = "on"))
         "xAntibody" "true" in
  server.ParseForm r = None ->
  services.request_error env controllers.createContext "GET"
    "https://digi-api.com/api/v1/digimon" = None ->
  (controllers.DisplayFilter env r).2 = [spec.listing controllers.createContext sent]
  /\ ("xAntibody", "false") ∉ sent.
Proof.
  intros level attribute xantibody sent Hp Hreq. split.
  - rewrite DisplayFilter_calls by exact Hp.
    rewrite GetAllDigimons_calls, Hreq. do 2 f_equal.
    unfold controllers.filterOptions. fold level attribute xantibody.
    replace (bool_decide (xantibody = "true") || bool_decide (xantibody = "on"))
      with (bool_decide (xantibody = "true" \/ xantibody = "on"))
      by (repeat case_bool_decide; tauto).
    subst sent. rewrite <- parameters_filter.
    by destruct (bool_decide (attribute ≠ "")) eqn:Ha,
                (bool_decide (level ≠ "")) eqn:Hl;
      try apply bool_decide_eq_false in Ha as ->%dec_stable;
      try apply bool_decide_eq_false in Hl as ->%dec_stable.
  - subst sent. rewrite !elem_of_app, !elem_of_param, list_elem_of_singleton.
    intros H. decompose [and or] H; discriminate.
Qed.

Section Bounds.
Variable env : services.Env.
Implicit Types (r : server.Request) (l : list http.Request).

Lemma within_bounds_nil : spec.within_bounds [].
Proof. split; [simpl; lia | by intros req Hreq%elem_of_nil]. Qed.

Lemma within_bounds_sent (path : string) (raw : string) (created : option string) :
  String.prefix "/" path = true ->
  spec.within_bounds
    match created with
    | Some _ => []
    | None =>
        [spec.outbound controllers.createContext
           ("https://digi-api.com/api/v1" +:+ path) raw]
    end.
Proof.
  intros Hpath. destruct created; [apply within_bounds_nil |].
  split; [simpl; lia |].
  intros req ->%list_elem_of_singleton. repeat split.
  rewrite (string_prefix_drop _ _ Hpath).
  by destruct (gostrings.drop _ path).
Qed.

Lemma GetAllDigimons_within_bounds opts :
  spec.within_bounds
    (services.GetAllDigimons env controllers.createContext (Some opts)).2.
Proof.
  rewrite GetAllDigimons_calls.
  apply (within_bounds_sent "/digimon" (url.encode (spec.parameters opts))).
  reflexivity.
Qed.

Lemma fetchDigimon_within_bounds (name : string) :
  spec.within_bounds
    (services.fetchDigimon env controllers.createContext
       (services.digimonAPIBaseURL +:+ "/digimon/" +:+ name)).2.
Proof.
  rewrite fetchDigimon_calls.
  apply (within_bounds_sent ("/digimon/" +:+ name) ""). reflexivity.
Qed.

Lemma fetchAttribute_within_bounds (name : string) :
  spec.within_bounds
    (services.fetchAttribute env controllers.createContext
       (services.digimonAPIBaseURL +:+ "/attribute/" +:+ name)).2.
Proof.
  rewrite fetchAttribute_calls.
  apply (within_bounds_sent ("/attribute/" +:+ name) ""). reflexivity.
Qed.

Lemma fetchLevel_within_bounds (name : string) :
  spec.within_bounds
    (services.fetchLevel env controllers.createContext
       (services.digimonAPIBaseURL +:+ "/level/" +:+ name)).2.
Proof.
  rewrite fetchLevel_calls.
  apply (within_bounds_sent ("/level/" +:+ name) ""). reflexivity.
Qed.

End Bounds.

(** X12. Whatever the request and whatever the client returns, a
    handler calls the client at most once, and the request it hands
    over is a GET created from a URL text that starts with
    [https://digi-api.com/api/v1/], bound to a context with a timeout of
    ten seconds on the background context. *)
Theorem handlers_within_bounds
    (env : services.Env) (r : server.Request) (h : server.Handler server.Response) :
  spec.handler env r h -> spec.within_bounds h.2.
Proof.
  intros Hh. destruct Hh.
  - rewrite DisplayListDigimons_calls. apply GetAllDigimons_within_bounds.
  - rewrite DisplayListDigimonsWithPagination_calls.
    apply GetAllDigimons_within_bounds.
  - destruct (decide (gostrings.TrimSpace (server.FormValue r "query") = "")) as [Hq|Hq].
    + unfold controllers.DisplaySearch. cbv zeta.
      rewrite (bool_decide_true _ Hq). apply within_bounds_nil.
    + rewrite DisplaySearch_calls by exact Hq. apply GetAllDigimons_within_bounds.
  - destruct (decide (gostrings.TrimSpace (server.FormValue r "query") = "")) as [Hq|Hq].
    + unfold controllers.DisplaySearchAdvanced. cbv zeta.
      rewrite (bool_decide_true _ Hq). apply within_bounds_nil.
    + rewrite DisplaySearchAdvanced_calls by exact Hq.
      apply GetAllDigimons_within_bounds.
  - destruct (server.ParseForm r) as [e|] eqn:Hp.
    + unfold controllers.DisplayFilter. cbv zeta. rewrite Hp.
      apply within_bounds_nil.
    + rewrite DisplayFilter_calls by exact Hp. apply GetAllDigimons_within_bounds.
  - destruct (server.ParseForm r) as [e|] eqn:Hp.
    + unfold controllers.DisplayFilterAdvanced. cbv zeta. rewrite Hp.
      apply within_bounds_nil.
    + rewrite DisplayFilterAdvanced_calls by exact Hp.
      apply GetAllDigimons_within_bounds.
  - destruct (strconv.Atoi (url.Get (server.Query r) "id")) as [id|] eqn:Hid.
    + rewrite (DisplayDigimonDetails_calls env r id Hid).
      apply fetchDigimon_within_bounds.
    + unfold controllers.DisplayDigimonDetails. cbv zeta.
      case_bool_decide; [apply within_bounds_nil |].
      rewrite Hid. apply within_bounds_nil.
  - destruct (decide (url.Get (server.Query r) "name" = "")) as [Hn|Hn].
    + unfold controllers.DisplayDigimonDetailsByName. cbv zeta.
      rewrite (bool_decide_true _ Hn). apply within_bounds_nil.
    + rewrite DisplayDigimonDetailsByName_calls by exact Hn.
      apply fetchDigimon_within_bounds.
  - destruct (decide (url.Get (server.Query r) "attribute" = "")) as [Hn|Hn].
    + unfold controllers.DisplayDigimonsByAttribute. cbv zeta.
      rewrite (bool_decide_true _ Hn). apply within_bounds_nil.
    + rewrite DisplayDigimonsByAttribute_calls by exact Hn.
      apply fetchAttribute_within_bounds.
  - destruct (decide (url.Get (server.Query r) "level" = "")) as [Hn|Hn].
    + unfold controllers.DisplayDigimonsByLevel. cbv zeta.
      rewrite (bool_decide_true _ Hn). apply within_bounds_nil.
    + rewrite DisplayDigimonsByLevel_calls by exact Hn.
      apply fetchLevel_within_bounds.
  - apply within_bounds_nil.
  - apply within_bounds_nil.
Qed.

Section Success.
Variable env : services.Env.
Implicit Types (ctx : context.Context) (url : string).

(** A service that returns a result has sent one request, answered
    with 200. *)
Lemma fetchDigimon_success ctx url x st e :
  (services.fetchDigimon env ctx url).1 = (Some x, st, e) ->
  exists req body,
    (services.fetchDigimon env ctx url).2 = [req]
    /\ services.round_trip env services.httpClient req = http.Answered 200 body.
Proof.
  unfold services.fetchDigimon. fetch_cases; intros [= <- <- <-]; eauto.
Qed.

Lemma fetchAttribute_success ctx url x st e :
  (services.fetchAttribute env ctx url).1 = (Some x, st, e) ->
  exists req body,
    (services.fetchAttribute env ctx url).2 = [req]
    /\ services.round_trip env services.httpClient req = http.Answered 200 body.
Proof.
  unfold services.fetchAttribute. fetch_cases; intros [= <- <- <-]; eauto.
Qed.

Lemma fetchLevel_success ctx url x st e :
  (services.fetchLevel env ctx url).1 = (Some x, st, e) ->
  exists req body,
    (services.fetchLevel env ctx url).2 = [req]
    /\ services.round_trip env services.httpClient req = http.Answered 200 body.
Proof.
  unfold services.fetchLevel. fetch_cases; intros [= <- <- <-]; eauto.
Qed.

Lemma GetAllDigimons_success ctx opts x st e :
  (services.GetAllDigimons env ctx opts).1 = (Some x, st, e) ->
  exists req body,
    (services.GetAllDigimons env ctx opts).2 = [req]
    /\ services.round_trip env services.httpClient req = http.Answered 200 body.
Proof.
  unfold services.GetAllDigimons. destruct opts; fetch_cases; intros [= <- <- <-]; eauto.
Qed.

End Success.

(** A handler that calls a service renders a template only on the
    success outcome of the service. *)
Lemma bind_call_rendered {T : Type}
    (svc : Call (services.Result T))
    (k : services.Result T -> server.Handler server.Response)
    (name : string) (data : server.Data) :
  spec.coherent svc.1 ->
  (forall code msg, code ≠ 200 ->
     (k (None, code, Some msg)).1 ≠ server.Returned (server.RenderTemplate name data)) ->
  (server.call svc ≫= k).1 = server.Returned (server.RenderTemplate name data) ->
  exists v, svc.1 = (Some v, 200, None).
Proof.
  intros Hco Herr Hrender. rewrite bind_call_1 in Hrender.
  apply coherent_cases in Hco as [(code & msg & Hcode & Hres)|(v & Hres)].
  - rewrite Hres in Hrender. by destruct (Herr code msg Hcode).
  - eauto.
Qed.

Ltac rendered H :=
  apply bind_call_rendered in H as (v & Hres); [ | coherence | error_branch ].

(** X13. A handler renders a template only after the client returned
    a response with status 200 to the one request the handler handed to
    it; the filter form and the test page, which call nothing, are the
    exceptions. *)
Theorem rendered_only_after_200
    (env : services.Env) (r : server.Request) (h : server.Handler server.Response)
    (name : string) (data : server.Data) :
  spec.handler env r h ->
  h.1 = server.Returned (server.RenderTemplate name data) ->
  h = controllers.DisplayFilterForm r
  \/ h = controllers.TestDisplay r
  \/ exists req body,
       h.2 = [req]
       /\ services.round_trip env services.httpClient req = http.Answered 200 body.
Proof.
  intros Hh Hrender. destruct Hh; [.. | by left | by right; left]; right; right.
  - rewrite DisplayListDigimons_calls.
    unfold controllers.DisplayListDigimons in Hrender. cbv zeta in Hrender.
    rendered Hrender. by apply GetAllDigimons_success in Hres.
  - rewrite DisplayListDigimonsWithPagination_calls.
    unfold controllers.DisplayListDigimonsWithPagination in Hrender.
    cbv zeta in Hrender.
    rendered Hrender. by apply GetAllDigimons_success in Hres.
  - unfold controllers.DisplaySearch in Hrender. cbv zeta in Hrender.
    case_bool_decide as Hq; [done |]. rewrite DisplaySearch_calls by exact Hq.
    rendered Hrender. by apply GetAllDigimons_success in Hres.
  - unfold controllers.DisplaySearchAdvanced in Hrender. cbv zeta in Hrender.
    case_bool_decide as Hq; [done |]. rewrite DisplaySearchAdvanced_calls by exact Hq.
    rendered Hrender. by apply GetAllDigimons_success in Hres.
  - unfold controllers.DisplayFilter in Hrender. cbv zeta in Hrender.
    destruct (server.ParseForm r) eqn:Hp; [done |].
    rewrite DisplayFilter_calls by exact Hp.
    change (server.Printf _ ≫= ?k) with (k tt) in Hrender. cbv beta in Hrender.
    rendered Hrender. by apply GetAllDigimons_success in Hres.
  - unfold controllers.DisplayFilterAdvanced in Hrender. cbv zeta in Hrender.
    destruct (server.ParseForm r) eqn:Hp; [done |].
    rewrite DisplayFilterAdvanced_calls by exact Hp.
    rendered Hrender. by apply GetAllDigimons_success in Hres.
  - unfold controllers.DisplayDigimonDetails in Hrender. cbv zeta in Hrender.
    case_bool_decide; [done |].
    destruct (strconv.Atoi _) as [id|] eqn:Hid; [| done].
    rewrite (DisplayDigimonDetails_calls env r id Hid).
    rendered Hrender. by apply fetchDigimon_success in Hres.
  - unfold controllers.DisplayDigimonDetailsByName in Hrender. cbv zeta in Hrender.
    case_bool_decide as Hn; [done |].
    rewrite DisplayDigimonDetailsByName_calls by exact Hn.
    rendered Hrender. by apply fetchDigimon_success in Hres.
  - unfold controllers.DisplayDigimonsByAttribute in Hrender. cbv zeta in Hrender.
    case_bool_decide as Hn; [done |].
    rewrite DisplayDigimonsByAttribute_calls by exact Hn.
    rendered Hrender. by apply fetchAttribute_success in Hres.
  - unfold controllers.DisplayDigimonsByLevel in Hrender. cbv zeta in Hrender.
    case_bool_decide as Hn; [done |].
    rewrite DisplayDigimonsByLevel_calls by exact Hn.
    rendered Hrender. by apply fetchLevel_success in Hres.
Qed.

(** What follows a service call on its success outcome. *)
Lemma bind_call_success {T : Type}
    (svc : Call (services.Result T))
    (k : services.Result T -> server.Handler server.Response)
    (w : server.Response) :
  spec.coherent svc.1 ->
  (forall code msg, code ≠ 200 -> (k (None, code, Some msg)).1 ≠ server.Returned w) ->
  (server.call svc ≫= k).1 = server.Returned w ->
  exists v, svc.1 = (Some v, 200, None) /\ (k (Some v, 200, None)).1 = server.Returned w.
Proof.
  intros Hco Herr Hw. rewrite bind_call_1 in Hw.
  apply coherent_cases in Hco as [(code & msg & Hcode & Hres)|(v & Hres)];
    rewrite Hres in Hw.
  - by destruct (Herr code msg Hcode).
  - eauto.
Qed.

Ltac succeeded H :=
  apply bind_call_success in H as (v & Hres & H); [ | coherence | error_branch ].

(** X14. The two lookups of a Digimon render no template other than
    [digimon_details], and never with a nil Digimon. *)
Theorem details_never_nil
    (env : services.Env) (r : server.Request) (name : string) (data : server.Data) :
  (controllers.DisplayDigimonDetails env r).1
    = server.Returned (server.RenderTemplate name data)
  \/ (controllers.DisplayDigimonDetailsByName env r).1
       = server.Returned (server.RenderTemplate name data) ->
  name = "digimon_details"
  /\ exists digimon, data = server.DigimonPointer (Some digimon).
Proof.
  intros [H|H].
  - unfold controllers.DisplayDigimonDetails in H. cbv zeta in H.
    case_bool_decide; [done |].
    destruct (strconv.Atoi _) as [id|]; [| done].
    succeeded H. simpl in H. injection H as <- <-. eauto.
  - unfold controllers.DisplayDigimonDetailsByName in H. cbv zeta in H.
    case_bool_decide; [done |].
    succeeded H. simpl in H. injection H as <- <-. eauto.
Qed.

(** X15. The view of the paginated listing: the current page is the
    page that was asked for, whatever number upstream reports, there is
    a next page unless upstream says this is the last one and a previous
    page unless it says this is the first one, and the totals and the
    Digimons are those of the upstream page. *)
Theorem paginated_view
    (env : services.Env) (r : server.Request) (name : string)
    (m : gmap string server.Value) :
  (controllers.DisplayListDigimonsWithPagination env r).1
    = server.Returned (server.RenderTemplate name (server.Map m)) ->
  name = "list_digimon_paginated"
  /\ exists data,
       (services.GetAllDigimons env controllers.createContext
          (Some (services.Build_DigimonListOptions "" false "" None ""
                   (controllers.requestedPage r) 20))).1
       = (Some data, 200, None)
       /\ m !! "CurrentPage" = Some (server.VInt (controllers.requestedPage r))
       /\ m !! "HasNext" = Some (server.VBool (negb (services.Last data)))
       /\ m !! "HasPrevious" = Some (server.VBool (negb (services.First data)))
       /\ m !! "TotalPages" = Some (server.VInt (services.TotalPages data))
       /\ m !! "TotalDigimons" = Some (server.VInt (services.TotalElements data))
       /\ m !! "Digimons" = Some (server.VSummaries (services.Content data)).
Proof.
  intros H. unfold controllers.DisplayListDigimonsWithPagination in H. cbv zeta in H.
  succeeded H. simpl in H. injection H as <- <-.
  split; [done |]. exists v. split; [exact Hres |].
  repeat split; reflexivity.
Qed.

(** X16. In the views of the advanced filter and of the lookups by
    attribute and by level, [Total] is the number of Digimons listed. *)
Theorem total_counts_the_list
    (env : services.Env) (r : server.Request) (name : string)
    (m : gmap string server.Value) :
  (controllers.DisplayFilterAdvanced env r).1
    = server.Returned (server.RenderTemplate name (server.Map m))
  \/ (controllers.DisplayDigimonsByAttribute env r).1
       = server.Returned (server.RenderTemplate name (server.Map m))
  \/ (controllers.DisplayDigimonsByLevel env r).1
       = server.Returned (server.RenderTemplate name (server.Map m)) ->
  exists l,
    m !! "Digimons" = Some (server.VSummaries l)
    /\ m !! "Total" = Some (server.VInt (Z.of_nat (length l))).
Proof.
  intros [H|[H|H]].
  - unfold controllers.DisplayFilterAdvanced in H. cbv zeta in H.
    destruct (server.ParseForm r); [done |].
    succeeded H. simpl in H. injection H as <- <-.
    eexists. split; reflexivity.
  - unfold controllers.DisplayDigimonsByAttribute in H. cbv zeta in H.
    case_bool_decide; [done |].
    succeeded H. simpl in H. injection H as <- <-.
    eexists. split; reflexivity.
  - unfold controllers.DisplayDigimonsByLevel in H. cbv zeta in H.
    case_bool_decide; [done |].
    succeeded H. simpl in H. injection H as <- <-.
    eexists. split; reflexivity.
Qed.

(* ================================================================= *)
(** * Trimming and parsing *)

Lemma trim_nothing (runes : list string) (fuel : nat) (s : string) :
  gostrings.leading runes s = None -> gostrings.trim runes fuel s = s.
Proof. intros H. destruct fuel; simpl; [done | by rewrite H]. Qed.

(** Trimming a trimmed string changes nothing. *)
Lemma TrimSpace_idempotent (s : string) :
  gostrings.TrimSpace (gostrings.TrimSpace s) = gostrings.TrimSpace s.
Proof.
  destruct (TrimSpace_trimmed s) as (_ & Hlead & Htrail).
  set (t := gostrings.TrimSpace s) in *.
  unfold gostrings.TrimSpace at 1. unfold gostrings.TrimLeft.
  rewrite (trim_nothing _ _ _ Hlead).
  unfold gostrings.TrimRight. rewrite (trim_nothing _ _ _ Htrail).
  apply string_rev_involutive.
Qed.

(** X17. The two searches do not see the white space around the
    query: a request whose query is another request's query, trimmed,
    is the same search, with the same response and the same upstream
    call (for the advanced search, with the same [exact] value). *)
Theorem search_ignores_surrounding_space
    (env : services.Env) (r r' : server.Request) :
  server.FormValue r' "query" = gostrings.TrimSpace (server.FormValue r "query") ->
  controllers.DisplaySearch env r' = controllers.DisplaySearch env r
  /\ (server.FormValue r' "exact" = server.FormValue r "exact" ->
      controllers.DisplaySearchAdvanced env r' = controllers.DisplaySearchAdvanced env r).
Proof.
  intros Hq. split.
  - unfold controllers.DisplaySearch. cbv zeta.
    by rewrite Hq, TrimSpace_idempotent.
  - intros He. unfold controllers.DisplaySearchAdvanced. cbv zeta.
    by rewrite Hq, He, TrimSpace_idempotent.
Qed.

(** X18. Every level and every attribute the filter form offers is a
    filter as it stands: submitted to the filter, it is sent upstream
    unchanged. *)
Theorem filter_form_options_are_sent
    (env : services.Env) (r : server.Request) (level attribute : string) :
  level ∈ controllers.GetAvailableLevels ->
  attribute ∈ controllers.GetAvailableAttributes ->
  server.ParseForm r = None ->
  server.FormValue r "level" = level ->
  server.FormValue r "attribute" = attribute ->
  services.request_error env controllers.createContext "GET"
    "https://digi-api.com/api/v1/digimon" = None ->
  (exists m : gmap string server.Value,
     controllers.DisplayFilterForm r
     = (server.Returned (server.RenderTemplate "filter_form" (server.Map m)), [])
     /\ m !! "Levels" = Some (server.VStrings controllers.GetAvailableLevels)
     /\ m !! "Attributes" = Some (server.VStrings controllers.GetAvailableAttributes))
  /\ (controllers.DisplayFilter env r).2
     = [spec.listing controllers.createContext
          ([("attribute", attribute); ("level", level); ("pageSize", "100")]
           ++ spec.param
                (bool_decide (server.FormValue r "xantibody" = "true"
                              \/ server.FormValue r "xantibody" = "on"))
                "xAntibody" "true")].
Proof.
  intros Hl Ha Hp Hlevel Hattribute Hreq. split.
  { eexists. split; [reflexivity |]. split; reflexivity. }
  rewrite DisplayFilter_calls by exact Hp.
  rewrite GetAllDigimons_calls, Hreq. do 2 f_equal.
  unfold controllers.filterOptions. rewrite Hlevel, Hattribute.
  replace (bool_decide (server.FormValue r "xantibody" = "true")
           || bool_decide (server.FormValue r "xantibody" = "on"))
    with (bool_decide (server.FormValue r "xantibody" = "true"
                       \/ server.FormValue r "xantibody" = "on"))
    by (repeat case_bool_decide; tauto).
  generalize (bool_decide (server.FormValue r "xantibody" = "true"
                           \/ server.FormValue r "xantibody" = "on")).
  intros x.
  clear Hlevel Hattribute Hp Hreq.
  apply list_elem_of_In in Hl, Ha. simpl in Hl, Ha.
  decompose [or] Hl; try done; decompose [or] Ha; try done;
    subst level attribute; destruct x; vm_compute; reflexivity.
Qed.

Section Decimal.
Implicit Types (s t : string) (x : N) (acc : Z).

Lemma digits_app s t acc :
  strconv.digits (s +:+ t) acc =
    match strconv.digits s acc with
    | Some a => strconv.digits t a
    | None => None
    end.
Proof.
  revert acc. induction s as [|c s IH]; intros acc; [done |].
  rewrite string_app_cons. simpl. destruct (strconv.is_digit c); [apply IH | done].
Qed.

Lemma pretty_N_char_digit x :
  (x < 10)%N ->
  strconv.is_digit (pretty_N_char x) = true
  /\ strconv.digit_value (pretty_N_char x) = Z.of_N x.
Proof.
  intros Hx.
  assert (x = 0 \/ x = 1 \/ x = 2 \/ x = 3 \/ x = 4 \/ x = 5 \/ x = 6 \/ x = 7
          \/ x = 8 \/ x = 9)%N as H by lia.
  decompose [or] H; subst x; split; reflexivity.
Qed.

Lemma pretty_N_go_app x s : pretty_N_go x s = pretty_N_go x "" +:+ s.
Proof.
  revert s. induction (N.lt_wf_0 x) as [x _ IH]; intros s.
  assert (x = 0 \/ 0 < x)%N as [->|Hx] by lia.
  - by rewrite !pretty_N_go_0.
  - rewrite (pretty_N_go_step x s), (pretty_N_go_step x "") by done.
    assert (Hlt : (x `div` 10 < x)%N) by (apply N.div_lt; lia).
    rewrite (IH _ Hlt (String _ s)), (IH _ Hlt (String _ "")).
    by rewrite string_app_assoc.
Qed.

(** The digits [%d] writes for a natural number read back as it. *)
Lemma digits_pretty_N_go x :
  strconv.digits (pretty_N_go x "") 0 = Some (Z.of_N x).
Proof.
  induction (N.lt_wf_0 x) as [x _ IH].
  assert (x = 0 \/ 0 < x)%N as [->|Hx] by lia.
  - by rewrite pretty_N_go_0.
  - rewrite pretty_N_go_step by done. rewrite pretty_N_go_app, digits_app.
    rewrite IH by (apply N.div_lt; lia). simpl.
    destruct (pretty_N_char_digit (x `mod` 10)) as [-> ->].
    { apply N.mod_lt. lia. }
    f_equal. rewrite N2Z.inj_div, N2Z.inj_mod. simpl Z.of_N.
    change (Z.of_N 10) with 10.
    symmetry. by apply Z.div_mod.
Qed.

(** They start with a digit. *)
Lemma pretty_N_go_head x :
  (0 < x)%N ->
  exists c rest, pretty_N_go x "" = String c rest /\ strconv.is_digit c = true.
Proof.
  induction (N.lt_wf_0 x) as [x _ IH]. intros Hx.
  rewrite pretty_N_go_step by done. rewrite pretty_N_go_app.
  destruct (N.eq_0_gt_0_cases (x `div` 10)) as [->|Hd].
  - rewrite pretty_N_go_0. eexists _, _. split; [reflexivity |].
    apply pretty_N_char_digit, N.mod_lt. lia.
  - destruct (IH (x `div` 10)%N) as (c & rest & -> & Hc); [apply N.div_lt; lia | done |].
    eexists _, _. split; [reflexivity | done].
Qed.

Lemma sign_split_digit c rest :
  strconv.is_digit c = true ->
  strconv.sign_split (String c rest) = (false, String c rest).
Proof.
  intros Hc. unfold strconv.sign_split.
  destruct (Ascii.eqb c "-") eqn:E1; [apply Ascii.eqb_eq in E1 as ->; done |].
  destruct (Ascii.eqb c "+") eqn:E2; [apply Ascii.eqb_eq in E2 as ->; done |].
  done.
Qed.

Lemma Atoi_unsigned c rest :
  strconv.is_digit c = true ->
  strconv.Atoi (String c rest) =
    match strconv.digits (String c rest) 0 with
    | Some n =>
        if (strconv.minInt <=? n) && (n <=? strconv.maxInt) then Some n else None
    | None => None
    end.
Proof. intros Hc. unfold strconv.Atoi. by rewrite (sign_split_digit _ _ Hc). Qed.

Lemma Atoi_negative c rest :
  strconv.Atoi ("-" +:+ String c rest) =
    match strconv.digits (String c rest) 0 with
    | Some n =>
        if (strconv.minInt <=? - n) && (- n <=? strconv.maxInt) then Some (- n)
        else None
    | None => None
    end.
Proof. reflexivity. Qed.

(** [strconv.Atoi] reads back what [%d] writes for an [int]. *)
Lemma Atoi_fmt_d (n : Z) :
  strconv.minInt <= n <= strconv.maxInt -> strconv.Atoi (fmt.d n) = Some n.
Proof.
  intros [H1%Z.leb_le H2%Z.leb_le]. unfold fmt.d. destruct n as [|p|p].
  - reflexivity.
  - change (pretty (Z.pos p)) with (pretty_N_go (N.pos p) "").
    destruct (pretty_N_go_head (N.pos p)) as (c & rest & Heq & Hc); [lia |].
    rewrite Heq, (Atoi_unsigned _ _ Hc), <- Heq, digits_pretty_N_go.
    change (Z.of_N (N.pos p)) with (Z.pos p). by rewrite H1, H2.
  - change (pretty (Z.neg p)) with ("-" +:+ pretty_N_go (N.pos p) "").
    destruct (pretty_N_go_head (N.pos p)) as (c & rest & Heq & Hc); [lia |].
    rewrite Heq, Atoi_negative, <- Heq, digits_pretty_N_go.
    change (- Z.of_N (N.pos p)) with (Z.neg p). by rewrite H1, H2.
Qed.

(** What [strconv.Atoi] returns fits an [int]. *)
Lemma Atoi_range s (v : Z) :
  strconv.Atoi s = Some v -> strconv.minInt <= v <= strconv.maxInt.
Proof.
  unfold strconv.Atoi. destruct (strconv.sign_split s) as [neg body].
  destruct body as [|c body]; [done |].
  destruct (strconv.digits _ 0) as [n|]; [| done].
  destruct (_ && _) eqn:Hr; [| done]. intros [= <-].
  apply andb_true_iff in Hr as [H1%Z.leb_le H2%Z.leb_le]. done.
Qed.
End Decimal.

(** X19. The page of the paginated listing is never negative and
    fits an [int]; when it is not 0 it is what the [page] parameter
    parses to. *)
Theorem requested_page_range (r : server.Request) :
  0 <= controllers.requestedPage r <= strconv.maxInt
  /\ (controllers.requestedPage r = 0
      \/ strconv.Atoi (url.Get (server.Query r) "page")
         = Some (controllers.requestedPage r)).
Proof.
  unfold controllers.requestedPage.
  case_bool_decide; [| by split; [| left]].
  destruct (strconv.Atoi _) as [p|] eqn:Hp; [| by split; [| left]].
  case_bool_decide; [| by split; [| left]].
  apply Atoi_range in Hp. split; [lia | by right].
Qed.

(** X20. Numbers in the form [%d] writes them pass through the
    handlers unchanged: a positive page is the page asked for
    upstream, and an id is looked up under the very text it came in. *)
Theorem decimal_numbers_pass_unchanged
    (env : services.Env) (r : server.Request) (n : Z) :
  (0 < n <= strconv.maxInt ->
   url.Get (server.Query r) "page" = fmt.d n ->
   controllers.requestedPage r = n)
  /\ (strconv.minInt <= n <= strconv.maxInt ->
      url.Get (server.Query r) "id" = fmt.d n ->
      services.request_error env controllers.createContext "GET"
        ("https://digi-api.com/api/v1/digimon/" +:+ fmt.d n) = None ->
      (controllers.DisplayDigimonDetails env r).2
      = [spec.lookup controllers.createContext
           ("/digimon/" +:+ url.Get (server.Query r) "id")]).
Proof.
  split.
  - intros Hn Hpage. unfold controllers.requestedPage. rewrite Hpage.
    rewrite Atoi_fmt_d by (unfold strconv.minInt; lia).
    rewrite (bool_decide_true (n > 0)) by lia.
    case_bool_decide as Hempty; [done |].
    assert (Hatoi : strconv.Atoi (fmt.d n) = Some n)
      by (apply Atoi_fmt_d; unfold strconv.minInt; lia).
    by rewrite Hempty in Hatoi.
  - intros Hn Hid Hreq.
    rewrite (DisplayDigimonDetails_calls env r n)
      by (rewrite Hid; by apply Atoi_fmt_d).
    unfold services.GetDigimonByID. cbv zeta. rewrite fetchDigimon_calls.
    change (services.digimonAPIBaseURL +:+ "/digimon/" +:+ fmt.d n)
      with ("https://digi-api.com/api/v1/digimon/" +:+ fmt.d n).
    by rewrite Hreq, Hid.
Qed.

(** X21. The view of the two searches: the query shown is the trimmed
    query, which is not empty, and the Digimons and the total are
    those of the page the service returned for that query: the total
    is the one upstream reports for the whole search, not the number of
    Digimons on the page. *)
Theorem search_view
    (env : services.Env) (r : server.Request) (name : string)
    (m : gmap string server.Value) :
  let query := gostrings.TrimSpace (server.FormValue r "query") in
  let exact :=
    bool_decide (server.FormValue r "exact" = "true")
    || bool_decide (server.FormValue r "exact" = "on") in
  let view (asked : bool) :=
    name = "search_digimon"
    /\ query ≠ ""
    /\ m !! "Query" = Some (server.VString query)
    /\ exists data : services.DigimonListResponse,
         (services.GetAllDigimons env controllers.createContext
            (Some (services.Build_DigimonListOptions query asked "" None "" 0 50))).1
         = (Some data, 200, None)
         /\ m !! "Digimons" = Some (server.VSummaries (services.Content data))
         /\ m !! "Total" = Some (server.VInt (services.TotalElements data)) in
  ((controllers.DisplaySearch env r).1
     = server.Returned (server.RenderTemplate name (server.Map m)) ->
   view false)
  /\ ((controllers.DisplaySearchAdvanced env r).1
        = server.Returned (server.RenderTemplate name (server.Map m)) ->
      view exact).
Proof.
  intros query exact view. subst view. cbv beta. split; intros H.
  - unfold controllers.DisplaySearch in H. cbv zeta in H. fold query in H.
    case_bool_decide as Hq; [done |].
    succeeded H. simpl in H. injection H as <- <-.
    repeat split; [done | ]. exists v.
    split; [exact Hres |]. split; reflexivity.
  - unfold controllers.DisplaySearchAdvanced in H. cbv zeta in H.
    fold query exact in H.
    case_bool_decide as Hq; [done |].
    succeeded H. simpl in H. injection H as <- <-.
    repeat split; [done | ]. exists v.
    split; [exact Hres |]. split; reflexivity.
Qed.

(** X22. A page or a page size that is not positive is as good as
    none: the listing is the one with the field at 0. *)
Theorem nonpositive_page_is_unset
    (env : services.Env) (ctx : context.Context)
    (name : string) (exact : bool) (attribute : string) (x : option bool)
    (level : string) (page size : Z) :
  services.GetAllDigimons env ctx
    (Some (services.Build_DigimonListOptions name exact attribute x level page size))
  = services.GetAllDigimons env ctx
      (Some (services.Build_DigimonListOptions name exact attribute x level
               (if bool_decide (page > 0) then page else 0)
               (if bool_decide (size > 0) then size else 0))).
Proof.
  unfold services.GetAllDigimons, services.NewRequestWithContext.
  destruct (services.request_error env _ _ _); [reflexivity |].
  cbv zeta. unfold url.Encode. rewrite !pairs_listQuery.
  assert (Hpar :
    spec.parameters
      (services.Build_DigimonListOptions name exact attribute x level page size)
    = spec.parameters
        (services.Build_DigimonListOptions name exact attribute x level
           (if bool_decide (page > 0) then page else 0)
           (if bool_decide (size > 0) then size else 0))).
  { unfold spec.parameters. simpl.
    by destruct (bool_decide (page > 0)) eqn:Hp, (bool_decide (size > 0)) eqn:Hs;
      rewrite ?Hp, ?Hs. }
  by rewrite Hpar.
Qed.

(** X23. Looking a Digimon up by an id is looking it up by the name
    that is the id as [%d] writes it: the same upstream call and the
    same response. *)
Theorem lookup_by_id_is_lookup_by_name
    (env : services.Env) (r r' : server.Request) (n : Z) :
  strconv.minInt <= n <= strconv.maxInt ->
  url.Get (server.Query r) "id" = fmt.d n ->
  url.Get (server.Query r') "name" = fmt.d n ->
  controllers.DisplayDigimonDetails env r
  = controllers.DisplayDigimonDetailsByName env r'.
Proof.
  intros Hn Hid Hname.
  pose proof (Atoi_fmt_d n Hn) as Hatoi.
  assert (Hne : fmt.d n ≠ "") by (by intros Heq; rewrite Heq in Hatoi).
  unfold controllers.DisplayDigimonDetails, controllers.DisplayDigimonDetailsByName.
  cbv zeta. rewrite Hid, Hname, Hatoi.
  by rewrite (bool_decide_false _ Hne).
Qed.

(* ================================================================= *)
(** * The further theorems at sample inputs *)

Lemma listing_query_separators_witness :
  spec.occurrences "="
    (http.RawQuery (spec.listing context.Background
                      (url.pairs (services.listQuery sample.options)))) = 7%nat
  /\ spec.occurrences "&"
       (http.RawQuery (spec.listing context.Background
                         (url.pairs (services.listQuery sample.options)))) = 6%nat.
Proof.
  destruct (listing_query_separators sample.up context.Background sample.options
              (spec.listing context.Background
                 (url.pairs (services.listQuery sample.options))))
    as (He & Ha & _).
  - vm_compute. apply list_elem_of_here.
  - split; [exact He | exact Ha].
Defined.

Lemma request_not_created_witness :
  spec.uncreated "invalid control character in URL"
    (services.GetDigimonByName sample.strict context.Background sample.broken_name)
  /\ spec.uncreated "invalid control character in URL"
       (services.GetLevelByName sample.strict context.Background sample.broken_name).
Proof.
  destruct (request_not_created sample.strict context.Background 289 sample.broken_name
              None "invalid control character in URL")
    as (_ & Hname & _ & _ & _ & _ & Hlevel).
  split; [apply Hname | apply Hlevel]; reflexivity.
Defined.





Lemma rejected_without_upstream_call_witness :
  controllers.DisplayFilter sample.up sample.broken_form
  = (server.Returned (server.Error "Erreur parsing formulaire" 400), [])
  /\ controllers.DisplayDigimonDetailsByName sample.up sample.blank_search
     = (server.Returned (server.Error "Nom manquant" 400), [])
  /\ controllers.DisplayDigimonsByAttribute sample.up sample.blank_search
     = (server.Returned (server.Error "Attribut manquant" 400), [])
  /\ controllers.DisplayDigimonsByLevel sample.up sample.blank_search
     = (server.Returned (server.Error "Niveau manquant" 400), []).
Proof.
  destruct (rejected_without_upstream_call sample.up sample.broken_form)
    as (_ & Hform & _).
  destruct (rejected_without_upstream_call sample.up sample.blank_search)
    as (Hget & _ & Hname & Hattribute & Hlevel).
  repeat apply conj.
  - apply Hform. discriminate.
  - apply Hname. apply Hget. reflexivity.
  - apply Hattribute. apply Hget. reflexivity.
  - apply Hlevel. apply Hget. reflexivity.
Defined.

Lemma DisplayFilter_query_witness :
  (controllers.DisplayFilter sample.up sample.choice).2
  = [spec.listing controllers.createContext
       [("attribute", "Vaccine"); ("level", "Rookie"); ("pageSize", "100");
        ("xAntibody", "true")]]
  /\ (controllers.DisplayFilter sample.up sample.blank_xantibody).2
     = [spec.listing controllers.createContext [("pageSize", "100")]].
Proof.
  split.
  - apply (DisplayFilter_query sample.up sample.choice); reflexivity.
  - apply (DisplayFilter_query sample.up sample.blank_xantibody); reflexivity.
Defined.

Lemma handlers_within_bounds_witness :
  spec.within_bounds (controllers.DisplayDigimonDetailsByName sample.up sample.visit).2
  /\ spec.within_bounds (controllers.DisplayFilterForm sample.visit).2
  /\ spec.within_bounds (controllers.TestDisplay sample.visit).2.
Proof.
  split; [| split].
  - apply (handlers_within_bounds sample.up sample.visit). apply spec.is_details_by_name.
  - apply (handlers_within_bounds sample.up sample.visit). apply spec.is_filter_form.
  - apply (handlers_within_bounds sample.up sample.visit). apply spec.is_test.
Defined.

Lemma rendered_only_after_200_witness :
  controllers.DisplayListDigimons sample.up sample.visit
  = controllers.DisplayFilterForm sample.visit
  \/ controllers.DisplayListDigimons sample.up sample.visit
     = controllers.TestDisplay sample.visit
  \/ exists req body,
       (controllers.DisplayListDigimons sample.up sample.visit).2 = [req]
       /\ services.round_trip sample.up services.httpClient req
          = http.Answered 200 body.
Proof.
  apply (rendered_only_after_200 sample.up sample.visit _ "list_digimon"
           (server.Summaries [sample.agumon; sample.gabumon])).
  - apply spec.is_list.
  - reflexivity.
Defined.

Lemma details_never_nil_witness :
  "digimon_details" = "digimon_details"
  /\ exists digimon,
       server.DigimonPointer (Some sample.digimon)
       = server.DigimonPointer (Some digimon).
Proof.
  apply (details_never_nil sample.up sample.visit "digimon_details"
           (server.DigimonPointer (Some sample.digimon))).
  left. reflexivity.
Defined.

Lemma paginated_view_witness :
  exists m : gmap string server.Value,
    (controllers.DisplayListDigimonsWithPagination sample.up sample.visit).1
    = server.Returned (server.RenderTemplate "list_digimon_paginated" (server.Map m))
    /\ m !! "CurrentPage" = Some (server.VInt 2)
    /\ exists data,
         m !! "HasNext" = Some (server.VBool (negb (services.Last data)))
         /\ m !! "HasPrevious" = Some (server.VBool (negb (services.First data))).
Proof.
  eexists. split; [reflexivity |].
  match goal with
  | |- ?m !! _ = _ /\ _ =>
      destruct (paginated_view sample.up sample.visit "list_digimon_paginated" m
                  eq_refl)
        as (_ & data & _ & Hpage & Hnext & Hprevious & _)
  end.
  split; [exact Hpage |]. exists data. split; [exact Hnext | exact Hprevious].
Defined.

Lemma total_counts_the_list_witness :
  exists m : gmap string server.Value,
    (controllers.DisplayDigimonsByLevel sample.up sample.visit).1
    = server.Returned (server.RenderTemplate "digimons_by_level" (server.Map m))
    /\ exists l,
         m !! "Digimons" = Some (server.VSummaries l)
         /\ m !! "Total" = Some (server.VInt (Z.of_nat (length l))).
Proof.
  eexists. split; [reflexivity |].
  match goal with
  | |- exists l, ?m !! _ = _ /\ _ =>
      apply (total_counts_the_list sample.up sample.visit "digimons_by_level" m)
  end.
  right. right. reflexivity.
Defined.

Lemma search_ignores_surrounding_space_witness :
  controllers.DisplaySearch sample.up sample.tidy_visit
  = controllers.DisplaySearch sample.up sample.visit
  /\ controllers.DisplaySearchAdvanced sample.up sample.tidy_visit
     = controllers.DisplaySearchAdvanced sample.up sample.visit.
Proof.
  destruct (search_ignores_surrounding_space sample.up sample.visit sample.tidy_visit)
    as [Hsearch Hadvanced].
  - reflexivity.
  - split; [exact Hsearch | apply Hadvanced; reflexivity].
Defined.

Lemma filter_form_options_are_sent_witness :
  (controllers.DisplayFilter sample.up sample.choice).2
  = [spec.listing controllers.createContext
       ([("attribute", "Vaccine"); ("level", "Rookie"); ("pageSize", "100")]
        ++ [("xAntibody", "true")])].
Proof.
  apply (filter_form_options_are_sent sample.up sample.choice "Rookie" "Vaccine");
    try reflexivity.
  - apply list_elem_of_In. simpl. tauto.
  - apply list_elem_of_In. simpl. tauto.
Defined.

Lemma decimal_numbers_pass_unchanged_witness :
  controllers.requestedPage sample.visit = 2
  /\ (controllers.DisplayDigimonDetails sample.up sample.visit).2
     = [spec.lookup controllers.createContext "/digimon/289"].
Proof.
  split.
  - apply (proj1 (decimal_numbers_pass_unchanged sample.up sample.visit 2));
      [unfold strconv.maxInt; lia | reflexivity].
  - apply (proj2 (decimal_numbers_pass_unchanged sample.up sample.visit 289));
      [unfold strconv.minInt, strconv.maxInt; lia | reflexivity | reflexivity].
Defined.

Lemma search_view_witness :
  exists m : gmap string server.Value,
    (controllers.DisplaySearchAdvanced sample.up sample.visit).1
    = server.Returned (server.RenderTemplate "search_digimon" (server.Map m))
    /\ m !! "Query" = Some (server.VString "agu")
    /\ exists data : services.DigimonListResponse,
         (services.GetAllDigimons sample.up controllers.createContext
            (Some (services.Build_DigimonListOptions "agu" true "" None "" 0 50))).1
         = (Some data, 200, None)
         /\ m !! "Total" = Some (server.VInt (services.TotalElements data)).
Proof.
  eexists. split; [reflexivity |].
  match goal with
  | |- ?m !! _ = _ /\ _ =>
      destruct (proj2 (search_view sample.up sample.visit "search_digimon" m) eq_refl)
        as (_ & _ & Hquery & data & Hdata & _ & Htotal)
  end.
  split; [exact Hquery |]. exists data. split; [exact Hdata | exact Htotal].
Defined.

Lemma lookup_by_id_is_lookup_by_name_witness :
  controllers.DisplayDigimonDetails sample.up sample.visit
  = controllers.DisplayDigimonDetailsByName sample.up sample.named_289.
Proof.
  apply (lookup_by_id_is_lookup_by_name sample.up sample.visit sample.named_289 289);
    [unfold strconv.minInt, strconv.maxInt; lia | reflexivity | reflexivity].
Defined.
